(** * cloud-server: the status/control API of [src/index.js]

    A shallow embedding of the Express application of [src/index.js] and
    the proofs of the properties its specification states about it.

    Conventions of the embedding.
    - A JavaScript number is the rational that it denotes ([Q]).  The
      arithmetic of [formatUptime] and of the handler [stats] is that of
      the rationals; [Binary64.stats] is the statistics handler with the
      result of every operation rounded to the nearest binary64 number,
      as JavaScript computes it.  [Math.floor] returns an integer ([Z]).
    - Reads of the host ([os.freemem()], [Math.random()], the clock, the
      environment) go through a state monad over a [World] that holds
      the successive readings.
    - The application is the list of layers that the calls [app.use],
      [app.get] and [app.post] register, in source order, run by the
      dispatch loop of the Express router. *)

From Stdlib Require Import ZArith QArith Qround Qpower String Ascii List Bool Lia Lqa.
From Stdlib Require Import DecimalString.
From ExtLib Require Import Structures.Monad Structures.MonadState.
From ExtLib Require Import Data.Monads.StateMonad.
Import ListNotations.
Import MonadNotation.

Local Open Scope string_scope.
Local Open Scope Z_scope.
Local Open Scope monad_scope.

(** ** JavaScript primitives *)

Module JS.

(** [Math.floor(x)] *)
Definition Math_floor (x : Q) : Z := Qfloor x.

(** [Math.trunc(x)], used by the remainder operator. *)
Definition Math_trunc (x : Q) : Z :=
  if Qle_bool 0 x then Qfloor x else Qceiling x.

(** [x % y]: the remainder has the sign of the dividend,
    [x - y * trunc (x / y)]. *)
Definition rem (x y : Q) : Q :=
  (x - y * inject_Z (Math_trunc (x / y)))%Q.

(** [String(n)] for an integer-valued number: its decimal digits, with a
    leading minus sign when negative (the form that JavaScript uses below
    10^21). *)
Definition Number_toString (n : Z) : string :=
  NilZero.string_of_int (Z.to_int n).

(** [x.toFixed(1)]: the closest number with one fractional digit, the
    larger one on a tie, written with its decimal point (the form that
    JavaScript uses below 10^21). *)
Definition toFixed1 (x : Q) : string :=
  let tenths (y : Q) := Qfloor (y * 10 + (1 # 2))%Q in
  let digits (n : Z) :=
    Number_toString (n / 10) ++ "." ++ Number_toString (n mod 10) in
  if Qle_bool 0 x then digits (tenths x)
  else "-" ++ digits (tenths (- x)%Q).

End JS.

(** ** [formatUptime] (src/index.js, lines 173-184) *)

Definition formatUptime (seconds : Q) : string :=
  let days := JS.Math_floor (seconds / (3600 * 24))%Q in
  let hours := JS.Math_floor (JS.rem seconds (3600 * 24) / 3600)%Q in
  let minutes := JS.Math_floor (JS.rem seconds 3600 / 60)%Q in
  let result := EmptyString in
  let result :=
    if 0 <? days
    then result ++ JS.Number_toString days ++ " day"
                ++ (if 1 <? days then "s" else EmptyString) ++ ", "
    else result in
  let result :=
    if 0 <? hours
    then result ++ JS.Number_toString hours ++ " hour"
                ++ (if 1 <? hours then "s" else EmptyString) ++ ", "
    else result in
  let result :=
    result ++ JS.Number_toString minutes ++ " minute"
           ++ (if 1 <? minutes then "s" else EmptyString) in
  result.

(** The wording of the specification: [x mod y] as the floored remainder,
    and a clause "N unit(s)" whose suffix depends on the count. *)

Module Spec.

Definition floor_mod (x y : Q) : Q :=
  (x - y * inject_Z (Qfloor (x / y)))%Q.

Definition clause (n : Z) (unit : string) : string :=
  JS.Number_toString n ++ " " ++ unit ++ (if 1 <? n then "s" else EmptyString).

Definition humanize (seconds : Q) : string :=
  let days := Qfloor (seconds / 86400)%Q in
  let hours := Qfloor (floor_mod seconds 86400 / 3600)%Q in
  let minutes := Qfloor (floor_mod seconds 3600 / 60)%Q in
  (if 0 <? days then clause days "day" ++ ", " else EmptyString)
  ++ (if 0 <? hours then clause hours "hour" ++ ", " else EmptyString)
  ++ clause minutes "minute".

(** [Math.round(x)]: the nearest integer, the larger one on a tie. *)
Definition round (x : Q) : Z := Qfloor (x + (1 # 2))%Q.

(** The three control actions, their paths and their messages. *)
Inductive Action : Type := start | stop | restart.

Definition control_path (a : Action) : string :=
  match a with
  | start => "/api/control/start"
  | stop => "/api/control/stop"
  | restart => "/api/control/restart"
  end.

Definition control_message (a : Action) : string :=
  match a with
  | start => "Server started successfully"
  | stop => "Server stopped successfully"
  | restart => "Server restarted successfully"
  end.

End Spec.

(** ** Values, requests and responses *)

(** The JavaScript values that the handlers hand to [res.json]. *)
#[warnings="-register-all"]
Inductive value : Type :=
| VNull
| VBool (b : bool)
| VNumber (q : Q)
| VString (s : string)
| VDate (ms : Z)
| VArray (items : list value)
| VObject (fields : list (string * value)).

(** An integer-valued number, such as [Math.floor] returns. *)
Definition VInt (n : Z) : value := VNumber (inject_Z n).

(** [obj[key]] *)
Fixpoint lookup (key : string) (fields : list (string * value)) : option value :=
  match fields with
  | [] => None
  | (k, v) :: rest => if String.eqb k key then Some v else lookup key rest
  end.

Definition prop (key : string) (v : value) : option value :=
  match v with
  | VObject fields => lookup key fields
  | _ => None
  end.

(** [obj.a.b] *)
Definition prop2 (a b : string) (v : value) : option value :=
  match prop a v with
  | Some o => prop b o
  | None => None
  end.

Definition is_number (v : value) : bool :=
  match v with VNumber _ => true | _ => false end.

Definition is_string (v : value) : bool :=
  match v with VString _ => true | _ => false end.

Inductive Method : Type := GET | HEAD | POST | PUT | DELETE | PATCH | OPTIONS.

Definition Method_eqb (a b : Method) : bool :=
  match a, b with
  | GET, GET | HEAD, HEAD | POST, POST | PUT, PUT
  | DELETE, DELETE | PATCH, PATCH | OPTIONS, OPTIONS => true
  | _, _ => false
  end.

(** The media type of the [Content-Type] header, parameters dropped. *)
Inductive MediaType : Type :=
| application_json
| application_x_www_form_urlencoded
| other_media_type (name : string).

(** A request: [path] is [req.path], the path name of the URL; [body] is
    the raw payload, [None] when the request carries none. *)
Record Request : Type := {
  method : Method;
  path : string;
  content_type : option MediaType;
  body : option string
}.

(** An error object passed to [next(err)]: [err.message], and the
    [err.status] that http-errors sets. *)
Record Error : Type := {
  message : string;
  err_status : option Z
}.

Inductive Body : Type :=
| Empty
| Json (v : value)
| File (name : string)
| Text (s : string).

Record Response : Type := {
  statusCode : Z;
  payload : Body
}.

(** The [res] object and its chained calls [res.status(c).json(v)]. *)
Module Res.
(** A fresh response has status 200; [finish] is [res.end()].  The payload
    is what the handler hands over; [on_wire] below tells what of it is
    sent for the method of the request. *)
Definition res : Response := {| statusCode := 200; payload := Empty |}.
Definition status (code : Z) (r : Response) : Response :=
  {| statusCode := code; payload := payload r |}.
Definition json (v : value) (r : Response) : Response :=
  {| statusCode := statusCode r; payload := Json v |}.
Definition sendFile (name : string) (r : Response) : Response :=
  {| statusCode := statusCode r; payload := File name |}.
Definition finish (r : Response) : Response := r.
End Res.

(** ** The host *)

(** What the handlers read from the process and the operating system.
    [os_freemem] and [Math_random] give the successive results of the
    calls; the two counters say how many have been consumed. *)
Record World : Type := {
  NODE_ENV : option string;
  clock : Z;
  process_uptime : Q;
  os_uptime : Q;
  os_totalmem : Z;
  os_freemem : nat -> Z;
  freemem_calls : nat;
  Math_random : nat -> Q;
  random_calls : nat
}.

Module Host.

Definition env_NODE_ENV : state World (option string) := gets NODE_ENV.
Definition Date_now : state World Z := gets clock.
Definition uptime : state World Q := gets process_uptime.
Definition system_uptime : state World Q := gets os_uptime.
Definition totalmem : state World Z := gets os_totalmem.

Definition freemem_consumed (w : World) : World :=
  {| NODE_ENV := NODE_ENV w; clock := clock w;
     process_uptime := process_uptime w; os_uptime := os_uptime w;
     os_totalmem := os_totalmem w;
     os_freemem := os_freemem w; freemem_calls := S (freemem_calls w);
     Math_random := Math_random w; random_calls := random_calls w |}.

Definition random_consumed (w : World) : World :=
  {| NODE_ENV := NODE_ENV w; clock := clock w;
     process_uptime := process_uptime w; os_uptime := os_uptime w;
     os_totalmem := os_totalmem w;
     os_freemem := os_freemem w; freemem_calls := freemem_calls w;
     Math_random := Math_random w; random_calls := S (random_calls w) |}.

Definition freemem : state World Z :=
  w <- get ;;
  put (freemem_consumed w) ;;
  ret (os_freemem w (freemem_calls w)).

Definition random : state World Q :=
  w <- get ;;
  put (random_consumed w) ;;
  ret (Math_random w (random_calls w)).

End Host.

(** ** The Express router *)

Module Express.

(** What a middleware or a handler does with a request. *)
Inductive Outcome : Type :=
| Next                                   (* next() *)
| NextErr (err : Error)                  (* next(err), or a throw *)
| Respond (r : Response)                 (* the response is sent *)
| SetTimeout (cb : state World Response) (ms : Z).
                                         (* sent by a timer callback *)

Definition Handler : Type := Request -> state World Outcome.
Definition ErrorHandler : Type := Error -> Request -> state World Outcome.

(** A layer of the router stack. [use] and [use_error] are [app.use(fn)]
    with a function of three and of four parameters; [route] is
    [app.get(path, fn)] or [app.post(path, fn)]. *)
Inductive Layer : Type :=
| use (fn : Handler)
| use_error (fn : ErrorHandler)
| route (m : Method) (pattern : string) (fn : Handler).

(** What the client receives. *)
Inductive Reply : Type :=
| Sent (r : Response)
| SentAfter (ms : Z) (cb : state World Response).

Definition lower (c : ascii) : ascii :=
  let n := nat_of_ascii c in
  if (65 <=? n)%nat && (n <=? 90)%nat then ascii_of_nat (n + 32) else c.

Fixpoint lowercase (s : string) : string :=
  match s with
  | EmptyString => EmptyString
  | String c rest => String (lower c) (lowercase rest)
  end.

(** A route path is matched without regard to case and with an optional
    trailing slash (the router's defaults). *)
Definition path_matches (pattern p : string) : bool :=
  let p := lowercase p in
  let pattern := lowercase pattern in
  if String.eqb pattern "/" then String.eqb p "/" || String.eqb p EmptyString
  else String.eqb p pattern || String.eqb p (pattern ++ "/").

(** A [HEAD] request is served by the [GET] route. *)
Definition method_matches (m req_method : Method) : bool :=
  Method_eqb req_method m
  || (Method_eqb req_method HEAD && Method_eqb m GET).

Definition route_matches (m : Method) (pattern : string) (req : Request) : bool :=
  path_matches pattern (path req) && method_matches m (method req).

(** The answer of the framework when the stack is exhausted. *)
Definition finalhandler (err : option Error) (req : Request) : Response :=
  match err with
  | None => {| statusCode := 404; payload := Text ("Cannot " ++ path req) |}
  | Some e =>
      {| statusCode := match err_status e with
                       | Some c => if (400 <=? c) && (c <? 600) then c else 500
                       | None => 500
                       end;
         payload := Text (message e) |}
  end.

(** The loop of [router.handle]: without an error the next matching
    ordinary layer runs, with an error the next error-handling layer. *)
Fixpoint handle (stack : list Layer) (err : option Error) (req : Request)
  : state World Reply :=
  let continue (rest : list Layer) (o : Outcome) : state World Reply :=
    match o with
    | Next => handle rest None req
    | NextErr e => handle rest (Some e) req
    | Respond r => ret (Sent r)
    | SetTimeout cb ms => ret (SentAfter ms cb)
    end in
  match stack with
  | [] => ret (Sent (finalhandler err req))
  | layer :: rest =>
      match layer, err with
      | use fn, None => o <- fn req ;; continue rest o
      | route m pattern fn, None =>
          if route_matches m pattern req
          then o <- fn req ;; continue rest o
          else handle rest None req
      | use_error fn, Some e => o <- fn e req ;; continue rest o
      | use _, Some _ | route _ _ _, Some _ => handle rest err req
      | use_error _, None => handle rest None req
      end
  end.

End Express.

(** ** The application (src/index.js) *)

Import Express.

(** The middleware that the application takes from its packages, each as
    the function that the package's factory returns, and [res.sendFile]. *)
Record Packages : Type := {
  morgan : Request -> Outcome;              (* morgan('dev') *)
  helmet : Request -> Outcome;              (* helmet({...}) *)
  cors : Request -> Outcome;                (* cors() *)
  express_json : Request -> Outcome;        (* express.json() *)
  express_urlencoded : Request -> Outcome;  (* express.urlencoded({...}) *)
  compression : Request -> Outcome;         (* compression() *)
  express_static : Request -> Outcome;      (* express.static(public) *)
  res_sendFile : string -> Outcome          (* res.sendFile(file) *)
}.

Definition middleware (fn : Request -> Outcome) : Layer :=
  use (fun req => ret (fn req)).

(** [process.env.NODE_ENV === 'production'] *)
Definition is_production (env : option string) : bool :=
  match env with
  | Some s => String.eqb s "production"
  | None => false
  end.

(** lines 55-57 *)
Definition home (pkg : Packages) : Handler := fun req =>
  ret (res_sendFile pkg "public/index.html").

(** lines 60-66 *)
Definition health : Handler := fun req =>
  timestamp <- Host.Date_now ;;
  uptime <- Host.uptime ;;
  ret (Respond (Res.json (VObject [
    ("status", VString "OK");
    ("timestamp", VDate timestamp);
    ("uptime", VNumber uptime)]) Res.res)).

(** lines 69-96, with the arithmetic of the rationals: no operation
    rounds.  [Binary64.stats] below rounds as the doubles of JavaScript
    do. *)
Definition stats : Handler := fun req =>
  r_cpu <- Host.random ;;
  let cpu_usage := JS.Math_floor (r_cpu * 100)%Q in
  total <- Host.totalmem ;;
  let memory_total := JS.Math_floor (inject_Z total / 1024 / 1024)%Q in
  free <- Host.freemem ;;
  let memory_free := JS.Math_floor (inject_Z free / 1024 / 1024)%Q in
  free' <- Host.freemem ;;
  total' <- Host.totalmem ;;
  let memory_usage :=
    JS.Math_floor ((1 - inject_Z free' / inject_Z total') * 100)%Q in
  r_used <- Host.random ;;
  let disk_used := JS.Math_floor (r_used * 200 + 100)%Q in
  r_free <- Host.random ;;
  let disk_free := JS.Math_floor (r_free * 200 + 100)%Q in
  r_traffic <- Host.random ;;
  let traffic := JS.toFixed1 (r_traffic * 10)%Q in
  server <- Host.uptime ;;
  system <- Host.system_uptime ;;
  let stats := VObject [
    ("cpu", VObject [
      ("usage", VInt cpu_usage)]);
    ("memory", VObject [
      ("total", VInt memory_total);
      ("free", VInt memory_free);
      ("usage", VInt memory_usage)]);
    ("disk", VObject [
      ("total", VInt 500);
      ("used", VInt disk_used);
      ("free", VInt disk_free)]);
    ("network", VObject [
      ("traffic", VString traffic)]);
    ("uptime", VObject [
      ("server", VString (formatUptime server));
      ("system", VString (formatUptime system))])] in
  ret (Respond (Res.json stats Res.res)).

(** The callback that the three control handlers hand to [setTimeout]. *)
Definition control_reply (msg : string) : state World Response :=
  timestamp <- Host.Date_now ;;
  ret (Res.json (VObject [
    ("success", VBool true);
    ("message", VString msg);
    ("timestamp", VDate timestamp)]) Res.res).

(** lines 103-114 *)
Definition control_start : Handler := fun req =>
  ret (SetTimeout (control_reply "Server started successfully") 1000).

(** lines 117-128 *)
Definition control_stop : Handler := fun req =>
  ret (SetTimeout (control_reply "Server stopped successfully") 1000).

(** lines 131-142 *)
Definition control_restart : Handler := fun req =>
  ret (SetTimeout (control_reply "Server restarted successfully") 2000).

(** lines 145-151; the log line [console.error(err.stack)] is left out. *)
Definition error_handler : ErrorHandler := fun err req =>
  env <- Host.env_NODE_ENV ;;
  ret (Respond (Res.json (VObject [
    ("error", VString "Something went wrong!");
    ("message",
      VString (if is_production env then "Server error" else message err))])
    (Res.status 500 Res.res))).

(** lines 154-159 *)
Definition not_found : Handler := fun req =>
  ret (Respond (Res.json (VObject [
    ("error", VString "Not Found");
    ("message",
      VString ("The requested resource at " ++ path req ++ " was not found"))])
    (Res.status 404 Res.res))).

(** The layers ahead of the routes, lines 30-50. *)
Definition pre_route (pkg : Packages) : list (Request -> Outcome) := [
  morgan pkg;
  helmet pkg;
  cors pkg;
  express_json pkg;
  express_urlencoded pkg;
  compression pkg;
  express_static pkg].

Definition routes (pkg : Packages) : list Layer := [
  route GET "/" (home pkg);
  route GET "/api/health" health;
  route GET "/api/stats" stats;
  route POST "/api/control/start" control_start;
  route POST "/api/control/stop" control_stop;
  route POST "/api/control/restart" control_restart].

(** The stack of the application, in the order of registration. *)
Definition app (pkg : Packages) : list Layer :=
  map middleware (pre_route pkg)
  ++ routes pkg
  ++ [use_error error_handler; use not_found].

(** The reply to a request, and the world after it. *)
Definition serve (pkg : Packages) (req : Request) (w : World) : Reply * World :=
  runState (handle (app pkg) None req) w.

(** ** A model of the packages

    The behaviour of the third-party middleware on the parts of a request
    that this development represents.  The general theorems below hold for
    any [Packages]; this instance serves to run the application on
    concrete requests. *)

(** [JSON.parse], as a recogniser of the JSON grammar. *)
Module JSON.

Local Open Scope char_scope.

Definition quote : ascii := "034".

Definition is_ws (c : ascii) : bool :=
  Ascii.eqb c " " || Ascii.eqb c "009" || Ascii.eqb c "010" || Ascii.eqb c "013".

Definition is_digit (c : ascii) : bool :=
  let n := nat_of_ascii c in (48 <=? n)%nat && (n <=? 57)%nat.

Definition is_hex (c : ascii) : bool :=
  let n := nat_of_ascii c in
  is_digit c || ((65 <=? n)%nat && (n <=? 70)%nat)
             || ((97 <=? n)%nat && (n <=? 102)%nat).

Definition is_escape (c : ascii) : bool :=
  Ascii.eqb c quote || Ascii.eqb c "\" || Ascii.eqb c "/" || Ascii.eqb c "b"
  || Ascii.eqb c "f" || Ascii.eqb c "n" || Ascii.eqb c "r" || Ascii.eqb c "t".

Fixpoint skip_ws (s : string) : string :=
  match s with
  | String c rest => if is_ws c then skip_ws rest else s
  | EmptyString => s
  end.

Fixpoint skip_digits (s : string) : string :=
  match s with
  | String c rest => if is_digit c then skip_digits rest else s
  | EmptyString => s
  end.

(** The functions below return the input that follows the phrase they
    recognise. *)

Definition literal (word s : string) : option string :=
  if String.prefix word s
  then Some (String.substring (String.length word)
                              (String.length s - String.length word) s)
  else None.

Definition exponent (s : string) : option string :=
  match s with
  | String c rest =>
      if Ascii.eqb c "e" || Ascii.eqb c "E" then
        let rest :=
          match rest with
          | String sign rest' =>
              if Ascii.eqb sign "+" || Ascii.eqb sign "-" then rest' else rest
          | EmptyString => rest
          end in
        match rest with
        | String d rest' => if is_digit d then Some (skip_digits rest') else None
        | EmptyString => None
        end
      else Some s
  | EmptyString => Some s
  end.

Definition fraction (s : string) : option string :=
  match s with
  | String c rest =>
      if Ascii.eqb c "." then
        match rest with
        | String d rest' =>
            if is_digit d then exponent (skip_digits rest') else None
        | EmptyString => None
        end
      else exponent s
  | EmptyString => Some s
  end.

Definition number (s : string) : option string :=
  let s :=
    match s with
    | String c rest => if Ascii.eqb c "-" then rest else s
    | EmptyString => s
    end in
  match s with
  | String c rest =>
      if Ascii.eqb c "0" then fraction rest
      else if is_digit c then fraction (skip_digits rest)
      else None
  | EmptyString => None
  end.

(** The characters of a string, after its opening quote. *)
Fixpoint chars (s : string) : option string :=
  match s with
  | EmptyString => None
  | String c rest =>
      if Ascii.eqb c quote then Some rest
      else if Ascii.eqb c "\" then
        match rest with
        | String e rest' =>
            if is_escape e then chars rest'
            else if Ascii.eqb e "u" then
              match rest' with
              | String h1 (String h2 (String h3 (String h4 rest''))) =>
                  if is_hex h1 && is_hex h2 && is_hex h3 && is_hex h4
                  then chars rest'' else None
              | _ => None
              end
            else None
        | EmptyString => None
        end
      else if (nat_of_ascii c <? 32)%nat then None
      else chars rest
  end.

Fixpoint value (fuel : nat) (s : string) : option string :=
  match fuel with
  | O => None
  | S fuel =>
      match s with
      | String c rest =>
          if Ascii.eqb c "{" then
            match skip_ws rest with
            | String c' rest' =>
                if Ascii.eqb c' "}" then Some rest'
                else members fuel (String c' rest')
            | EmptyString => None
            end
          else if Ascii.eqb c "[" then
            match skip_ws rest with
            | String c' rest' =>
                if Ascii.eqb c' "]" then Some rest'
                else elements fuel (String c' rest')
            | EmptyString => None
            end
          else if Ascii.eqb c quote then chars rest
          else if Ascii.eqb c "t" then literal "true" s
          else if Ascii.eqb c "f" then literal "false" s
          else if Ascii.eqb c "n" then literal "null" s
          else number s
      | EmptyString => None
      end
  end
with members (fuel : nat) (s : string) : option string :=
  match fuel with
  | O => None
  | S fuel =>
      match s with
      | String c rest =>
          if Ascii.eqb c quote then
            match chars rest with
            | Some after_key =>
                match skip_ws after_key with
                | String colon after_colon =>
                    if Ascii.eqb colon ":" then
                      match value fuel (skip_ws after_colon) with
                      | Some after_value =>
                          match skip_ws after_value with
                          | String sep rest' =>
                              if Ascii.eqb sep "," then members fuel (skip_ws rest')
                              else if Ascii.eqb sep "}" then Some rest'
                              else None
                          | EmptyString => None
                          end
                      | None => None
                      end
                    else None
                | EmptyString => None
                end
            | None => None
            end
          else None
      | EmptyString => None
      end
  end
with elements (fuel : nat) (s : string) : option string :=
  match fuel with
  | O => None
  | S fuel =>
      match value fuel s with
      | Some after_value =>
          match skip_ws after_value with
          | String sep rest' =>
              if Ascii.eqb sep "," then elements fuel (skip_ws rest')
              else if Ascii.eqb sep "]" then Some rest'
              else None
          | EmptyString => None
          end
      | None => None
      end
  end.

(** Whether [JSON.parse(text)] returns (rather than throws). *)
Definition parses (text : string) : bool :=
  match value (2 * String.length text + 2) (skip_ws text) with
  | Some rest => String.eqb (skip_ws rest) EmptyString
  | None => false
  end.

End JSON.

Module NodeModules.

(** Logging, headers and compression leave the request to the next
    layer. *)
Definition morgan (req : Request) : Outcome := Next.
Definition helmet (req : Request) : Outcome := Next.
Definition compression (req : Request) : Outcome := Next.

(** cors: a preflight request is answered at once, with status 204 and
    no content. *)
Definition cors (req : Request) : Outcome :=
  if Method_eqb (method req) OPTIONS
  then Respond (Res.finish (Res.status 204 Res.res))
  else Next.

Definition parse_failed : Error :=
  {| message := "Unexpected token in JSON"; err_status := Some 400 |}.

(** body-parser, JSON in strict mode: an empty payload is accepted; the
    first character other than white space must open an object or an
    array; the text must parse.  A failure goes to [next] with status
    400.  (Size limits and character sets are not represented.) *)
Definition express_json (req : Request) : Outcome :=
  match body req, content_type req with
  | Some raw, Some application_json =>
      if String.eqb raw EmptyString then Next
      else
        match JSON.skip_ws raw with
        | String c _ =>
            if (Ascii.eqb c "{" || Ascii.eqb c "[") && JSON.parses raw
            then Next else NextErr parse_failed
        | EmptyString => NextErr parse_failed
        end
  | _, _ => Next
  end.

(** body-parser, urlencoded with the extended parser: every payload is
    accepted. *)
Definition express_urlencoded (req : Request) : Outcome := Next.

Definition ends_with_slash (p : string) : bool :=
  match String.length p with
  | O => false
  | S n => String.eqb (String.substring n 1 p) "/"
  end.

(** serve-static: a [GET] or [HEAD] request whose path names a file of
    the public directory (the index file for a path that ends in a
    slash) is answered with that file; every other request falls
    through.  [files] tells which files exist. *)
Definition express_static (files : string -> bool) (req : Request) : Outcome :=
  let name :=
    "public" ++ path req
    ++ (if ends_with_slash (path req) then "index.html" else EmptyString) in
  if (Method_eqb (method req) GET || Method_eqb (method req) HEAD)
     && files name
  then Respond (Res.sendFile name Res.res)
  else Next.

Definition not_a_file : Error :=
  {| message := "ENOENT: no such file or directory"; err_status := Some 404 |}.

(** [res.sendFile]: a missing file is reported to [next]. *)
Definition res_sendFile (files : string -> bool) (name : string) : Outcome :=
  if files name then Respond (Res.sendFile name Res.res)
  else NextErr not_a_file.

Definition packages (files : string -> bool) : Packages :=
  Build_Packages morgan helmet cors express_json express_urlencoded
                 compression (express_static files) (res_sendFile files).

End NodeModules.

(** ** Observations on requests and replies *)

Definition passes (o : Outcome) : bool :=
  match o with Next => true | _ => false end.

(** Every layer ahead of the routes hands the request on with [next()]. *)
Definition reaches_routes (pkg : Packages) (req : Request) : bool :=
  forallb (fun mw => passes (mw req)) (pre_route pkg).

(** Some route of the application matches the method and the path. *)
Definition matches_route (pkg : Packages) (req : Request) : bool :=
  existsb (fun layer =>
             match layer with
             | route m pattern _ => route_matches m pattern req
             | _ => false
             end) (routes pkg).

(** The JSON document of a reply that was sent at once. *)
Definition json_of (r : Reply) : option value :=
  match r with
  | Sent {| payload := Json v |} => Some v
  | _ => None
  end.

Definition status_of (r : Reply) : option Z :=
  match r with
  | Sent r => Some (statusCode r)
  | SentAfter _ _ => None
  end.

(** The response that the client receives: at once, or from the timer
    callback, which runs in the world [later] of the time it fires. *)
Definition settle (r : Reply) (later : World) : Response * World :=
  match r with
  | Sent r => (r, later)
  | SentAfter _ cb => runState cb later
  end.

(** The body of the 500 response, lines 147-150. *)
Definition failure_body (detail : string) : Body :=
  Json (VObject [
    ("error", VString "Something went wrong!");
    ("message", VString detail)]).

(** ** Sample hosts and requests *)

Module Example.

Definition no_files (name : string) : bool := false.

Definition pkg : Packages := NodeModules.packages no_files.

(** A host with 3 GiB of memory, 1 GiB of it free, whose random source
    returns 0.37. *)
Definition host : World := {|
  NODE_ENV := None;
  clock := 1700000000000;
  process_uptime := 125;
  os_uptime := 90000;
  os_totalmem := 3221225472;
  os_freemem := fun _ => 1073741824;
  freemem_calls := 0;
  Math_random := fun _ => (37 # 100)%Q;
  random_calls := 0
|}.


Definition request (m : Method) (p : string) : Request :=
  {| method := m; path := p; content_type := None; body := None |}.

Definition post_json (p raw : string) : Request :=
  {| method := POST; path := p;
     content_type := Some application_json; body := Some raw |}.

(** The payload of the test "should handle malformed JSON gracefully". *)
Definition malformed : string := "{ invalid json }".

(** The payload of the test "should parse JSON request bodies", an object
    with the one member test: data. *)
Definition test_data : string :=
  let q := String JSON.quote EmptyString in
  "{" ++ q ++ "test" ++ q ++ ":" ++ q ++ "data" ++ q ++ "}".

End Example.

(** ** The expectations of the test suite (src/tests/__tests__.js) *)

Module Tests.

(** [\d] *)
Definition is_digit (c : ascii) : bool :=
  let n := nat_of_ascii c in (48 <=? n)%nat && (n <=? 57)%nat.

(** [\s], on the characters of ASCII: space, tab, line feed, vertical
    tab, form feed and carriage return. *)
Definition is_space (c : ascii) : bool :=
  let n := nat_of_ascii c in
  (n =? 32)%nat || ((9 <=? n)%nat && (n <=? 13)%nat).

(** [(minute|hour|day)] at the head of the text. *)
Definition unit_word (s : string) : bool :=
  String.prefix "minute" s || String.prefix "hour" s || String.prefix "day" s.

(** [\s+(minute|hour|day)] at the head of the text. *)
Fixpoint spaces_unit (s : string) : bool :=
  match s with
  | String c rest => is_space c && (spaces_unit rest || unit_word rest)
  | EmptyString => false
  end.

(** [\d+\s+(minute|hour|day)] at the head of the text. *)
Fixpoint digits_spaces_unit (s : string) : bool :=
  match s with
  | String c rest => is_digit c && (digits_spaces_unit rest || spaces_unit rest)
  | EmptyString => false
  end.

(** [expect(text).toMatch(/\d+\s+(minute|hour|day)/)], lines 240-241: the
    pattern matches somewhere in the text. *)
Fixpoint human_readable (s : string) : bool :=
  digits_spaces_unit s
  || match s with
     | String _ rest => human_readable rest
     | EmptyString => false
     end.

End Tests.

(** ** More sample hosts and packages *)

Module Sample.

(** The sample host with another source of random numbers, not yet
    drawn from. *)
Definition with_draws (draws : nat -> Q) (w : World) : World := {|
  NODE_ENV := NODE_ENV w;
  clock := clock w;
  process_uptime := process_uptime w;
  os_uptime := os_uptime w;
  os_totalmem := os_totalmem w;
  os_freemem := os_freemem w;
  freemem_calls := freemem_calls w;
  Math_random := draws;
  random_calls := 0
|}.



(** A public directory that holds the one file api/stats. *)
Definition shadowing (name : string) : bool := String.eqb name "public/api/stats".

End Sample.

(** The delay of the timer behind a reply, in milliseconds. *)
Definition delay_of (r : Reply) : option Z :=
  match r with
  | Sent _ => None
  | SentAfter ms _ => Some ms
  end.

(** ** Binary64 arithmetic *)

(** The numbers of JavaScript are the binary64 numbers of IEEE 754.  A
    finite one is represented by the rational it denotes, and an
    operation by the exact operation followed by [round]; infinities,
    NaN and the sign of zero are not represented. *)
Module Double.

(** Round to the nearest integer, a tie to the even one. *)
Definition rne (x : Q) : Z :=
  let f := Qfloor x in
  match (x - inject_Z f ?= 1 # 2)%Q with
  | Lt => f
  | Gt => f + 1
  | Eq => if Z.even f then f else f + 1
  end.

(** floor (log2 x), for x > 0. *)
Definition binade (x : Q) : Z :=
  let e := Z.log2 (Qnum x) - Z.log2 (Zpos (Qden x)) in
  if Qle_bool (2 ^ e) x then e else e - 1.

(** The exponent of the unit in the last place of x > 0: 52 below the
    binade, and -1074 for the subnormal numbers. *)
Definition ulp_exponent (x : Q) : Z := Z.max (binade x - 52) (-1074).

Definition round_pos (x : Q) : Q :=
  let q := ulp_exponent x in
  (inject_Z (rne (x / 2 ^ q)) * 2 ^ q)%Q.

(** The binary64 number nearest to x, a tie to the even significand. *)
Definition round (x : Q) : Q :=
  match (x ?= 0)%Q with
  | Eq => 0%Q
  | Gt => round_pos x
  | Lt => (- round_pos (- x))%Q
  end.

Definition add (x y : Q) : Q := round (x + y).
Definition sub (x y : Q) : Q := round (x - y).
Definition mul (x y : Q) : Q := round (x * y).
Definition div (x y : Q) : Q := round (x / y).

(** The largest binary64 number below 1, and the largest multiple of
    2^-52 below 1. *)
Definition below_one : Q := (1 - (1 # 2 ^ 53))%Q.
Definition below_one_52 : Q := (1 - (1 # 2 ^ 52))%Q.

End Double.

(** ** The application in binary64 arithmetic *)

Module Binary64.

(** lines 69-96, every operation rounded.  The readings of the host are
    binary64 numbers already; [Math.floor] and [toFixed] work on the
    exact value of their argument. *)
Definition stats : Handler := fun req =>
  r_cpu <- Host.random ;;
  let cpu_usage := JS.Math_floor (Double.mul r_cpu 100) in
  total <- Host.totalmem ;;
  let memory_total :=
    JS.Math_floor (Double.div (Double.div (inject_Z total) 1024) 1024) in
  free <- Host.freemem ;;
  let memory_free :=
    JS.Math_floor (Double.div (Double.div (inject_Z free) 1024) 1024) in
  free' <- Host.freemem ;;
  total' <- Host.totalmem ;;
  let memory_usage :=
    JS.Math_floor
      (Double.mul (Double.sub 1 (Double.div (inject_Z free') (inject_Z total')))
                  100) in
  r_used <- Host.random ;;
  let disk_used := JS.Math_floor (Double.add (Double.mul r_used 200) 100) in
  r_free <- Host.random ;;
  let disk_free := JS.Math_floor (Double.add (Double.mul r_free 200) 100) in
  r_traffic <- Host.random ;;
  let traffic := JS.toFixed1 (Double.mul r_traffic 10) in
  server <- Host.uptime ;;
  system <- Host.system_uptime ;;
  let stats := VObject [
    ("cpu", VObject [
      ("usage", VInt cpu_usage)]);
    ("memory", VObject [
      ("total", VInt memory_total);
      ("free", VInt memory_free);
      ("usage", VInt memory_usage)]);
    ("disk", VObject [
      ("total", VInt 500);
      ("used", VInt disk_used);
      ("free", VInt disk_free)]);
    ("network", VObject [
      ("traffic", VString traffic)]);
    ("uptime", VObject [
      ("server", VString (formatUptime server));
      ("system", VString (formatUptime system))])] in
  ret (Respond (Res.json stats Res.res)).

Definition routes (pkg : Packages) : list Layer := [
  route GET "/" (home pkg);
  route GET "/api/health" health;
  route GET "/api/stats" stats;
  route POST "/api/control/start" control_start;
  route POST "/api/control/stop" control_stop;
  route POST "/api/control/restart" control_restart].

Definition app (pkg : Packages) : list Layer :=
  map middleware (pre_route pkg)
  ++ routes pkg
  ++ [use_error error_handler; use not_found].

Definition serve (pkg : Packages) (req : Request) (w : World) : Reply * World :=
  runState (handle (app pkg) None req) w.

(** Sample hosts whose random source returns a binary64 number: the one
    nearest to 0.37, and the largest one below 1. *)
Definition host : World :=
  Sample.with_draws (fun _ => (3332663724254167 # 9007199254740992)%Q)
                    Example.host.

Definition top : World :=
  Sample.with_draws (fun _ => Double.below_one) Example.host.

(** A host whose draw times ten falls half-way between two binary64
    numbers: the product is rounded to 5.75. *)
Definition boundary : World :=
  Sample.with_draws (fun _ => (2589569785738035 # 4503599627370496)%Q)
                    Example.host.

(** A host with 10 GiB of memory, 9 GiB of it free. *)
Definition ten_nine : World := {|
  NODE_ENV := None;
  clock := 1700000000000;
  process_uptime := 125;
  os_uptime := 90000;
  os_totalmem := 10737418240;
  os_freemem := fun _ => 9663676416;
  freemem_calls := 0;
  Math_random := fun _ => (3332663724254167 # 9007199254740992)%Q;
  random_calls := 0
|}.

End Binary64.

(** ** What is sent for the method of the request *)

Definition without_body (r : Response) : Response :=
  {| statusCode := statusCode r; payload := Empty |}.

(** The response to a HEAD request carries its status and no body:
    [res.send], which [res.json] calls, ends such a response without
    writing one. *)
Definition on_wire (req : Request) (r : Reply) : Reply :=
  if Method_eqb (method req) HEAD
  then match r with
       | Sent r => Sent (without_body r)
       | SentAfter ms cb => SentAfter ms (r <- cb ;; ret (without_body r))
       end
  else r.

(** * Properties of [formatUptime] *)

Section FormatUptime.

Lemma append_assoc (a b c : string) : (a ++ b) ++ c = a ++ b ++ c.
Proof. induction a as [|x a IH]; simpl; [reflexivity | now rewrite IH]. Qed.

Lemma trunc_nonneg (x : Q) : (0 <= x)%Q -> JS.Math_trunc x = Qfloor x.
Proof.
  intros H. unfold JS.Math_trunc.
  now rewrite (proj2 (Qle_bool_iff 0 x) H).
Qed.

Lemma rem_floor_mod (x y : Q) :
  (0 <= x)%Q -> (0 < y)%Q -> JS.rem x y = Spec.floor_mod x y.
Proof.
  intros Hx Hy. unfold JS.rem, Spec.floor_mod.
  rewrite trunc_nonneg; [reflexivity |].
  apply Qle_shift_div_l; [exact Hy | now rewrite Qmult_0_l].
Qed.

Lemma floor_mod_integer (n m : Z) :
  m <> 0 ->
  (Spec.floor_mod (inject_Z n) (inject_Z m) == inject_Z (n mod m))%Q.
Proof.
  intros Hm. unfold Spec.floor_mod. rewrite <- Zdiv_Qdiv.
  rewrite Z.mod_eq by exact Hm.
  unfold Z.sub. rewrite inject_Z_plus, inject_Z_opp, inject_Z_mult.
  ring.
Qed.

(** On a whole number of seconds the three counts are the quotients of
    integer arithmetic, with hours below 24 and minutes below 60. *)
Lemma humanize_counts (n : Z) :
  0 <= n ->
  Qfloor (inject_Z n / 86400) = n / 86400
  /\ Qfloor (Spec.floor_mod (inject_Z n) 86400 / 3600) = n mod 86400 / 3600
  /\ Qfloor (Spec.floor_mod (inject_Z n) 3600 / 60) = n mod 3600 / 60
  /\ 0 <= n mod 86400 / 3600 < 24
  /\ 0 <= n mod 3600 / 60 < 60.
Proof.
  intros Hn. repeat split.
  - symmetry. apply (Zdiv_Qdiv n 86400).
  - rewrite (Zdiv_Qdiv (n mod 86400) 3600). apply Qfloor_comp.
    now rewrite (floor_mod_integer n 86400).
  - rewrite (Zdiv_Qdiv (n mod 3600) 60). apply Qfloor_comp.
    now rewrite (floor_mod_integer n 3600).
  - apply Z.div_pos; [apply Z.mod_pos_bound |]; lia.
  - apply Z.div_lt_upper_bound; [lia |].
    apply (Z.mod_pos_bound n 86400). lia.
  - apply Z.div_pos; [apply Z.mod_pos_bound |]; lia.
  - apply Z.div_lt_upper_bound; [lia |].
    apply (Z.mod_pos_bound n 3600). lia.
Qed.

End FormatUptime.

(** C1. On a non-negative number of seconds, [formatUptime] returns what
    the specification describes: with days = floor(seconds / 86400),
    hours = floor(seconds mod 86400 / 3600) and
    minutes = floor(seconds mod 3600 / 60), the "N day(s), " clause only
    when days > 0, then the "N hour(s), " clause only when hours > 0, then
    always the "N minute(s)" clause, each unit word taking "s" exactly when
    its count is greater than 1. *)
Theorem formatUptime_humanize (seconds : Q) :
  (0 <= seconds)%Q -> formatUptime seconds = Spec.humanize seconds.
Proof.
  intros H. unfold formatUptime, Spec.humanize, Spec.clause, JS.Math_floor.
  change (3600 * 24)%Q with 86400%Q.
  rewrite !rem_floor_mod by (exact H || reflexivity).
  cbv zeta.
  destruct (0 <? Qfloor (seconds / 86400));
    destruct (0 <? Qfloor (Spec.floor_mod seconds 86400 / 3600));
    repeat (progress (rewrite ?append_assoc; cbn [append])); reflexivity.
Qed.

Lemma formatUptime_humanize_witness :
  (0 <= 90061)%Q /\ formatUptime 90061 = Spec.humanize 90061.
Proof. split; [discriminate | apply (formatUptime_humanize 90061); discriminate]. Defined.

(** C2 (as stated). The four equations of the specification do not all
    hold: a count of zero minutes is rendered "0 minute". *)
Lemma format_law_as_stated_fails :
  ~ (formatUptime 125 = "2 minutes"
     /\ formatUptime 3660 = "1 hour, 1 minute"
     /\ formatUptime 90000 = "1 day, 1 hour, 0 minutes"
     /\ formatUptime 59 = "0 minutes").
Proof. intros (_ & _ & _ & H). vm_compute in H. discriminate H. Qed.

(** C2 (amended). humanize(125) = "2 minutes",
    humanize(3660) = "1 hour, 1 minute",
    humanize(90000) = "1 day, 1 hour, 0 minute" and
    humanize(59) = "0 minute". *)
Theorem format_law :
  formatUptime 125 = "2 minutes"
  /\ formatUptime 3660 = "1 hour, 1 minute"
  /\ formatUptime 90000 = "1 day, 1 hour, 0 minute"
  /\ formatUptime 59 = "0 minute".
Proof. repeat split; vm_compute; reflexivity. Qed.

(** * Rounding *)

Section Rounding.

Local Open Scope Q_scope.

Lemma floor_lower (a : Z) (x : Q) : inject_Z a <= x -> (a <= Qfloor x)%Z.
Proof. intros H. rewrite <- (Qfloor_Z a). now apply Qfloor_resp_le. Qed.

Lemma floor_upper (b : Z) (x : Q) : x < inject_Z b -> (Qfloor x < b)%Z.
Proof.
  intros H. rewrite Zlt_Qlt.
  apply Qle_lt_trans with x; [apply Qfloor_le | exact H].
Qed.



Lemma ratio_bounds (f t : Z) :
  (0 < f <= t)%Z -> 0 < inject_Z f / inject_Z t <= 1.
Proof.
  intros [Hf Hft].
  assert (Ht : 0 < inject_Z t) by (change 0 with (inject_Z 0); rewrite <- Zlt_Qlt; lia).
  split.
  - apply Qlt_shift_div_l; [exact Ht |]. rewrite Qmult_0_l.
    change 0 with (inject_Z 0). now rewrite <- Zlt_Qlt.
  - apply Qle_shift_div_r; [exact Ht |]. rewrite Qmult_1_l. now rewrite <- Zle_Qle.
Qed.




Lemma toFixed1_nonneg (x : Q) :
  0 <= x ->
  JS.toFixed1 x
  = (let n := Qfloor (x * 10 + (1 # 2)) in
     JS.Number_toString (n / 10) ++ "." ++ JS.Number_toString (n mod 10))%string.
Proof.
  intros H. unfold JS.toFixed1.
  now rewrite (proj2 (Qle_bool_iff 0 x) H).
Qed.

Lemma tenths_range (r : Q) :
  0 <= r < 1 -> (0 <= Qfloor (r * 10 * 10 + (1 # 2)) <= 100)%Z.
Proof.
  intros [H0 H1]. split.
  - apply floor_lower. change (inject_Z 0) with 0. lra.
  - apply Z.lt_succ_r, floor_upper. change (inject_Z (Z.succ 100)) with 101. lra.
Qed.

End Rounding.

(** * The router *)

Section Router.

Variable req : Request.

Lemma handle_passing (l : list (Request -> Outcome)) (rest : list Layer) (w : World) :
  forallb (fun mw => passes (mw req)) l = true ->
  runState (handle (map middleware l ++ rest) None req) w
  = runState (handle rest None req) w.
Proof.
  induction l as [|mw l IH]; intros H.
  - reflexivity.
  - cbn [forallb] in H. apply andb_prop in H as [Hmw Hl].
    cbn. destruct (mw req); try discriminate Hmw.
    apply IH, Hl.
Qed.

Lemma handle_route_skip m pattern fn (rest : list Layer) (w : World) :
  route_matches m pattern req = false ->
  runState (handle (route m pattern fn :: rest) None req) w
  = runState (handle rest None req) w.
Proof. intros H. cbn. rewrite H. reflexivity. Qed.

Lemma handle_route_hit m pattern fn (rest : list Layer) (w : World) o w' :
  route_matches m pattern req = true ->
  runState (fn req) w = (o, w') ->
  runState (handle (route m pattern fn :: rest) None req) w
  = match o with
    | Next => runState (handle rest None req) w'
    | NextErr e => runState (handle rest (Some e) req) w'
    | Respond r => (Sent r, w')
    | SetTimeout cb ms => (SentAfter ms cb, w')
    end.
Proof. intros H E. cbn. rewrite H. cbn. rewrite E. destruct o; reflexivity. Qed.

(** With an error pending, the layers that are not error handlers are
    skipped. *)
Lemma handle_error_skips (l : list (Request -> Outcome)) (rest : list Layer) e (w : World) :
  runState (handle (map middleware l ++ rest) (Some e) req) w
  = runState (handle rest (Some e) req) w.
Proof. induction l as [|mw l IH]; [reflexivity | cbn; exact IH]. Qed.

Lemma path_matches_inv pattern p :
  path_matches pattern p = true ->
  lowercase p = lowercase pattern
  \/ lowercase p = lowercase pattern ++ "/"
  \/ (lowercase pattern = "/" /\ lowercase p = EmptyString).
Proof.
  unfold path_matches.
  destruct (String.eqb (lowercase pattern) "/") eqn:E.
  - apply String.eqb_eq in E. rewrite E. intros H.
    apply orb_prop in H as [H|H]; apply String.eqb_eq in H; auto.
  - intros H. apply orb_prop in H as [H|H]; apply String.eqb_eq in H; auto.
Qed.

End Router.

(** Decides a goal [route_matches m pattern req = _] from the fact [Hp]
    that the path of the request matches some other literal pattern. *)
Ltac path_known Hp :=
  let E := fresh "E" in
  apply path_matches_inv in Hp as [E|[E|[E _]]];
  [ unfold route_matches, path_matches; rewrite E; reflexivity ..
  | discriminate E ].

(** The replies of the application to the requests that reach the
    routes. *)
Section Serve.

Variable pkg : Packages.
Variable req : Request.
Hypothesis reaches : reaches_routes pkg req = true.

Lemma serve_routes (w : World) :
  serve pkg req w
  = runState (handle (routes pkg ++ [use_error error_handler; use not_found])
                     None req) w.
Proof. unfold serve, app. now apply handle_passing. Qed.

Lemma get_route_matches (pattern : string) :
  method req = GET ->
  path_matches pattern (path req) = true ->
  route_matches GET pattern req = true.
Proof. intros Hm Hp. unfold route_matches. now rewrite Hp, Hm. Qed.

Lemma serve_stats (w : World) :
  method req = GET ->
  path_matches "/api/stats" (path req) = true ->
  serve pkg req w
  = match runState (stats req) w with
    | (Respond r, w') => (Sent r, w')
    | (_, w') => (Sent Res.res, w')
    end.
Proof.
  intros Hm Hp. pose proof (get_route_matches _ Hm Hp) as H.
  rewrite serve_routes. unfold routes. cbn [List.app].
  rewrite (handle_route_skip _ GET "/") by path_known Hp.
  rewrite (handle_route_skip _ GET "/api/health") by path_known Hp.
  erewrite handle_route_hit; [| exact H | reflexivity].
  reflexivity.
Qed.

End Serve.

(** * The statistics snapshot *)

Section Stats.

Variable pkg : Packages.
Variable req : Request.
Variable w : World.

(** The readings that the handler takes, in the order of the calls. *)
Let draw (k : nat) : Q := Math_random w (k + random_calls w).
Let free (k : nat) : Z := os_freemem w (k + freemem_calls w).
Let total : Z := os_totalmem w.

Lemma stats_fields :
  exists v w',
    runState (stats req) w = (Respond (Res.json v Res.res), w')
    /\ prop2 "cpu" "usage" v = Some (VInt (JS.Math_floor (draw 0 * 100)))
    /\ prop2 "memory" "total" v
       = Some (VInt (JS.Math_floor (inject_Z total / 1024 / 1024)))
    /\ prop2 "memory" "free" v
       = Some (VInt (JS.Math_floor (inject_Z (free 0) / 1024 / 1024)))
    /\ prop2 "memory" "usage" v
       = Some (VInt (JS.Math_floor
                       ((1 - inject_Z (free 1) / inject_Z total) * 100)))
    /\ prop2 "disk" "total" v = Some (VInt 500)
    /\ prop2 "disk" "used" v = Some (VInt (JS.Math_floor (draw 1 * 200 + 100)))
    /\ prop2 "disk" "free" v = Some (VInt (JS.Math_floor (draw 2 * 200 + 100)))
    /\ prop2 "network" "traffic" v = Some (VString (JS.toFixed1 (draw 3 * 10))).
Proof.
  do 2 eexists. split; [reflexivity |]. repeat split.
Qed.

Hypothesis reaches : reaches_routes pkg req = true.
Hypothesis is_get : method req = GET.
Hypothesis at_stats : path_matches "/api/stats" (path req) = true.

Lemma serve_stats_fields :
  exists v w',
    serve pkg req w = (Sent {| statusCode := 200; payload := Json v |}, w')
    /\ prop2 "cpu" "usage" v = Some (VInt (JS.Math_floor (draw 0 * 100)))
    /\ prop2 "memory" "total" v
       = Some (VInt (JS.Math_floor (inject_Z total / 1024 / 1024)))
    /\ prop2 "memory" "free" v
       = Some (VInt (JS.Math_floor (inject_Z (free 0) / 1024 / 1024)))
    /\ prop2 "memory" "usage" v
       = Some (VInt (JS.Math_floor
                       ((1 - inject_Z (free 1) / inject_Z total) * 100)))
    /\ prop2 "disk" "total" v = Some (VInt 500)
    /\ prop2 "disk" "used" v = Some (VInt (JS.Math_floor (draw 1 * 200 + 100)))
    /\ prop2 "disk" "free" v = Some (VInt (JS.Math_floor (draw 2 * 200 + 100)))
    /\ prop2 "network" "traffic" v = Some (VString (JS.toFixed1 (draw 3 * 10))).
Proof.
  destruct stats_fields as (v & w' & Hrun & Hfields).
  exists v, w'. split; [| exact Hfields].
  rewrite (serve_stats pkg req reaches w is_get at_stats), Hrun. reflexivity.
Qed.

End Stats.



(** * The packages model *)

(** In the model of the packages, a POST request whose payload the JSON
    parser accepts reaches the routes: the cors layer answers only
    preflight requests and the static layer only GET and HEAD. *)
Lemma post_reaches_routes (files : string -> bool) (req : Request) :
  method req = POST ->
  passes (NodeModules.express_json req) = true ->
  reaches_routes (NodeModules.packages files) req = true.
Proof.
  intros Hm Hjson. unfold reaches_routes, pre_route. cbn [forallb].
  cbn [NodeModules.packages morgan helmet cors express_json
       express_urlencoded compression express_static].
  unfold NodeModules.cors, NodeModules.express_static.
  rewrite Hm, Hjson. reflexivity.
Qed.

(** The framework's own final handler would keep the status 400 of a
    parse failure. *)
Lemma finalhandler_keeps_400 (req : Request) :
  statusCode (finalhandler (Some NodeModules.parse_failed) req) = 400.
Proof. reflexivity. Qed.

(** * Failures *)

Section Failures.

Variable pkg : Packages.
Variable req : Request.
Variable err : Error.
Variable w : World.

Lemma error_handler_run :
  runState (error_handler err req) w
  = (Respond {| statusCode := 500;
                payload := failure_body
                             (if is_production (NODE_ENV w)
                              then "Server error" else message err) |}, w).
Proof. reflexivity. Qed.



(** A failure that arises in any layer ahead of the error handler is
    answered by the error handler. *)
Lemma failure_reaches_error_handler (n : nat) :
  (n <= 13)%nat ->
  runState (handle (skipn n (app pkg)) (Some err) req) w
  = (Sent {| statusCode := 500;
             payload := failure_body
                          (if is_production (NODE_ENV w)
                           then "Server error" else message err) |}, w).
Proof.
  intros H. do 14 (destruct n as [|n]; [reflexivity |]). lia.
Qed.

End Failures.

(** C3 (what the code does). When the body-parsing layer rejects the
    payload of a request, that is [express.json()] calls [next(err)], the
    response is the one of the error handler, with status 500, whatever
    status the parser gave to the error (400 for invalid JSON). *)
Theorem rejected_body_500 (pkg : Packages) (req : Request) (w : World) (err : Error) :
  passes (morgan pkg req) = true ->
  passes (helmet pkg req) = true ->
  passes (cors pkg req) = true ->
  express_json pkg req = NextErr err ->
  serve pkg req w
  = (Sent {| statusCode := 500;
             payload := failure_body
                          (if is_production (NODE_ENV w)
                           then "Server error" else message err) |}, w).
Proof.
  intros Hmorgan Hhelmet Hcors Hjson.
  unfold serve.
  change (app pkg) with
    (map middleware [morgan pkg; helmet pkg; cors pkg]
     ++ middleware (express_json pkg) :: skipn 4 (app pkg))%list.
  rewrite handle_passing.
  2:{ cbn [forallb]. now rewrite Hmorgan, Hhelmet, Hcors. }
  cbn [handle middleware]. cbn [bind ret Monad_state runState].
  rewrite Hjson.
  apply (failure_reaches_error_handler pkg req err w 4). lia.
Qed.

Lemma rejected_body_500_witness :
  serve Example.pkg (Example.post_json "/api/control/start" Example.malformed)
        Example.host
  = (Sent {| statusCode := 500;
             payload := failure_body "Unexpected token in JSON" |},
     Example.host).
Proof.
  apply (rejected_body_500 Example.pkg
           (Example.post_json "/api/control/start" Example.malformed)
           Example.host NodeModules.parse_failed); reflexivity.
Defined.



(** * Control actions and unmatched requests *)

Section Routes.

Variable pkg : Packages.
Variable req : Request.
Variable w : World.
Hypothesis reaches : reaches_routes pkg req = true.

Lemma control_route_matches (a : Spec.Action) :
  method req = POST ->
  path_matches (Spec.control_path a) (path req) = true ->
  route_matches POST (Spec.control_path a) req = true.
Proof. intros Hm Hp. unfold route_matches. now rewrite Hp, Hm. Qed.

Lemma serve_control (a : Spec.Action) :
  method req = POST ->
  path_matches (Spec.control_path a) (path req) = true ->
  serve pkg req w
  = (SentAfter (match a with Spec.restart => 2000 | _ => 1000 end)
               (control_reply (Spec.control_message a)), w).
Proof.
  intros Hm Hp. pose proof (control_route_matches a Hm Hp) as Hroute.
  rewrite (serve_routes pkg req reaches). unfold routes. cbn [List.app].
  rewrite (handle_route_skip _ GET "/") by (destruct a; path_known Hp).
  rewrite (handle_route_skip _ GET "/api/health") by (destruct a; path_known Hp).
  rewrite (handle_route_skip _ GET "/api/stats") by (destruct a; path_known Hp).
  destruct a; cbn [Spec.control_path Spec.control_message] in *.
  - erewrite handle_route_hit; [| exact Hroute | reflexivity]. reflexivity.
  - rewrite (handle_route_skip _ POST "/api/control/start") by path_known Hp.
    erewrite handle_route_hit; [| exact Hroute | reflexivity]. reflexivity.
  - rewrite (handle_route_skip _ POST "/api/control/start") by path_known Hp.
    rewrite (handle_route_skip _ POST "/api/control/stop") by path_known Hp.
    erewrite handle_route_hit; [| exact Hroute | reflexivity]. reflexivity.
Qed.

Lemma serve_unmatched :
  matches_route pkg req = false ->
  serve pkg req w
  = (Sent {| statusCode := 404;
             payload := Json (VObject [
               ("error", VString "Not Found");
               ("message",
                 VString ("The requested resource at " ++ path req
                          ++ " was not found"))]) |}, w).
Proof.
  intros H. unfold matches_route, routes in H. cbn [existsb] in H.
  repeat (apply orb_false_elim in H as [? H]).
  rewrite (serve_routes pkg req reaches). unfold routes. cbn [List.app].
  rewrite !handle_route_skip by assumption.
  reflexivity.
Qed.

End Routes.

(** C6. Every POST request that reaches the route of a control action
    (start, stop or restart), whatever its body, gets status 200 with
    success = true and the message of that action, sent from the timer
    callback; the world is left as it was, by the handler and by the
    callback. *)
Theorem control_succeeds (pkg : Packages) (req : Request) (w : World)
    (a : Spec.Action) :
  reaches_routes pkg req = true ->
  method req = POST ->
  path_matches (Spec.control_path a) (path req) = true ->
  snd (serve pkg req w) = w
  /\ forall later,
       settle (fst (serve pkg req w)) later
       = ({| statusCode := 200;
             payload := Json (VObject [
               ("success", VBool true);
               ("message", VString (Spec.control_message a));
               ("timestamp", VDate (clock later))]) |}, later).
Proof.
  intros Hreach Hm Hp. rewrite (serve_control pkg req w Hreach a Hm Hp).
  split; reflexivity.
Qed.

Lemma control_succeeds_witness :
  snd (serve Example.pkg
             (Example.post_json "/api/control/restart" Example.test_data)
             Example.host) = Example.host
  /\ forall later,
       settle (fst (serve Example.pkg
                          (Example.post_json "/api/control/restart"
                                             Example.test_data)
                          Example.host)) later
       = ({| statusCode := 200;
             payload := Json (VObject [
               ("success", VBool true);
               ("message", VString "Server restarted successfully");
               ("timestamp", VDate (clock later))]) |}, later).
Proof.
  apply (control_succeeds Example.pkg
           (Example.post_json "/api/control/restart" Example.test_data)
           Example.host Spec.restart); reflexivity.
Defined.

(** C7 (as stated). A CORS preflight request for a path that matches no
    route and no static file is answered by the cors layer, with status
    204; it does not get the 404 response. *)
Lemma unmatched_preflight_not_404 :
  ~ (matches_route Example.pkg (Example.request OPTIONS "/no/such/path") = false ->
     passes (express_static Example.pkg (Example.request OPTIONS "/no/such/path"))
     = true ->
     status_of (fst (serve Example.pkg (Example.request OPTIONS "/no/such/path")
                           Example.host)) = Some 404).
Proof.
  intros H. specialize (H eq_refl eq_refl). vm_compute in H. discriminate H.
Qed.

(** * More on [formatUptime]: the counts in whole minutes *)

Section UptimeCounts.

Local Open Scope Q_scope.

Lemma floor_unique (q : Z) (y : Q) :
  inject_Z q <= y -> y < inject_Z (q + 1) -> Qfloor y = q.
Proof.
  intros Hlo Hhi. apply Z.le_antisymm.
  - apply Z.lt_succ_r. now apply floor_upper.
  - now apply floor_lower.
Qed.

Lemma floor_bounds (x : Q) :
  inject_Z (Qfloor x) <= x /\ x < inject_Z (Qfloor x + 1).
Proof. split; [apply Qfloor_le | apply Qlt_floor]. Qed.

(** floor (x / n) = floor x / n, for a positive integer n. *)
Lemma floor_div (x : Q) (n : Z) :
  (0 < n)%Z -> Qfloor (x / inject_Z n) = (Qfloor x / n)%Z.
Proof.
  intros Hn. destruct (floor_bounds x) as [Hlo Hhi].
  assert (Hn' : 0 < inject_Z n) by (change 0 with (inject_Z 0); now rewrite <- Zlt_Qlt).
  pose proof (Z.mul_div_le (Qfloor x) n Hn) as Hq.
  pose proof (Z.mul_succ_div_gt (Qfloor x) n Hn) as Hq'.
  apply floor_unique.
  - apply Qle_shift_div_l; [exact Hn' |].
    rewrite <- inject_Z_mult. apply Qle_trans with (inject_Z (Qfloor x)); [| exact Hlo].
    rewrite <- Zle_Qle. lia.
  - apply Qlt_shift_div_r; [exact Hn' |].
    rewrite <- inject_Z_mult. apply Qlt_le_trans with (inject_Z (Qfloor x + 1)); [exact Hhi |].
    rewrite <- Zle_Qle. lia.
Qed.

(** floor (x - c) = floor x - c, for an integer c. *)
Lemma floor_minus_integer (x : Q) (c : Z) :
  Qfloor (x - inject_Z c) = (Qfloor x - c)%Z.
Proof.
  destruct (floor_bounds x) as [Hlo Hhi].
  apply floor_unique.
  - unfold Z.sub. rewrite inject_Z_plus, inject_Z_opp. lra.
  - replace (Qfloor x - c + 1)%Z with (Qfloor x + 1 + - c)%Z by lia.
    rewrite inject_Z_plus, inject_Z_opp. lra.
Qed.

Variable seconds : Q.
Hypothesis nonneg : 0 <= seconds.

Let m : Z := Qfloor (seconds / 60).

Lemma days_of_minutes :
  JS.Math_floor (seconds / (3600 * 24)) = (m / 1440)%Z.
Proof.
  unfold JS.Math_floor, m. rewrite <- (floor_div (seconds / 60) 1440) by lia.
  apply Qfloor_comp. change (inject_Z 1440) with 1440. field.
Qed.

Lemma hours_of_seconds :
  Qfloor (seconds / 3600) = (m / 60)%Z.
Proof.
  unfold m. rewrite <- (floor_div (seconds / 60) 60) by lia.
  apply Qfloor_comp. change (inject_Z 60) with 60. field.
Qed.

Lemma hours_of_minutes :
  JS.Math_floor (JS.rem seconds (3600 * 24) / 3600) = ((m / 60) mod 24)%Z.
Proof.
  rewrite rem_floor_mod by (exact nonneg || reflexivity).
  unfold Spec.floor_mod. fold (JS.Math_floor (seconds / (3600 * 24))).
  rewrite days_of_minutes. unfold JS.Math_floor.
  rewrite (Z.mod_eq (m / 60) 24) by lia.
  rewrite Z.div_div by lia. change (60 * 24)%Z with 1440%Z.
  rewrite <- hours_of_seconds, <- floor_minus_integer.
  apply Qfloor_comp. rewrite inject_Z_mult. change (inject_Z 24) with 24. field.
Qed.

Lemma minutes_of_minutes :
  JS.Math_floor (JS.rem seconds 3600 / 60) = (m mod 60)%Z.
Proof.
  rewrite rem_floor_mod by (exact nonneg || reflexivity).
  unfold Spec.floor_mod, JS.Math_floor.
  rewrite hours_of_seconds.
  rewrite (Z.mod_eq m 60) by lia.
  unfold m at 2. rewrite <- floor_minus_integer.
  apply Qfloor_comp. rewrite inject_Z_mult. change (inject_Z 60) with 60. field.
Qed.

End UptimeCounts.

(** The text of [formatUptime] as three clauses, for any input. *)
Lemma formatUptime_clauses (seconds : Q) :
  formatUptime seconds
  = (let days := JS.Math_floor (seconds / (3600 * 24))%Q in
     let hours := JS.Math_floor (JS.rem seconds (3600 * 24) / 3600)%Q in
     let minutes := JS.Math_floor (JS.rem seconds 3600 / 60)%Q in
     (if 0 <? days then Spec.clause days "day" ++ ", " else EmptyString)
     ++ (if 0 <? hours then Spec.clause hours "hour" ++ ", " else EmptyString)
     ++ Spec.clause minutes "minute").
Proof.
  unfold formatUptime, Spec.clause. cbv zeta.
  destruct (0 <? JS.Math_floor (seconds / (3600 * 24)));
    destruct (0 <? JS.Math_floor (JS.rem seconds (3600 * 24) / 3600));
    repeat (progress (rewrite ?append_assoc; cbn [append])); reflexivity.
Qed.

(** X1. On a non-negative number of seconds the text depends on the whole
    minutes m = floor(seconds / 60) only: the day count is m / 1440, the
    hour count (m / 60) mod 24, below 24, and the minute count m mod 60,
    below 60. *)
Theorem formatUptime_minutes (seconds : Q) :
  (0 <= seconds)%Q ->
  let m := Qfloor (seconds / 60) in
  formatUptime seconds
  = (if 0 <? m / 1440 then Spec.clause (m / 1440) "day" ++ ", " else EmptyString)
    ++ (if 0 <? (m / 60) mod 24
        then Spec.clause ((m / 60) mod 24) "hour" ++ ", " else EmptyString)
    ++ Spec.clause (m mod 60) "minute".
Proof.
  intros H m. rewrite formatUptime_clauses. cbv zeta.
  rewrite (days_of_minutes seconds), (hours_of_minutes seconds H),
    (minutes_of_minutes seconds H).
  reflexivity.
Qed.

Lemma formatUptime_minutes_witness :
  formatUptime (1802599 # 10)
  = "2 days, 2 hours, 4 minutes".
Proof.
  rewrite (formatUptime_minutes (1802599 # 10)); [reflexivity | discriminate].
Defined.

(** X2. The seconds within the minute do not show: two non-negative
    durations with the same number of whole minutes have the same text. *)
Theorem formatUptime_drops_seconds (s t : Q) :
  (0 <= s)%Q -> (0 <= t)%Q ->
  Qfloor (s / 60) = Qfloor (t / 60) ->
  formatUptime s = formatUptime t.
Proof.
  intros Hs Ht E. rewrite !formatUptime_clauses. cbv zeta.
  rewrite (days_of_minutes s), (hours_of_minutes s Hs), (minutes_of_minutes s Hs).
  rewrite (days_of_minutes t), (hours_of_minutes t Ht), (minutes_of_minutes t Ht).
  now rewrite E.
Qed.

Lemma formatUptime_drops_seconds_witness :
  formatUptime 3660 = formatUptime (37195 # 10).
Proof.
  apply (formatUptime_drops_seconds 3660 (37195 # 10));
    [discriminate | discriminate | reflexivity].
Defined.

(** X3. Below one hour the text is the minute clause alone; in
    particular it is "0 minute" during the first minute. *)
Theorem formatUptime_below_hour (seconds : Q) :
  (0 <= seconds < 3600)%Q ->
  formatUptime seconds = Spec.clause (Qfloor (seconds / 60)) "minute"
  /\ ((seconds < 60)%Q -> formatUptime seconds = "0 minute").
Proof.
  intros [H0 H1].
  assert (Hm : 0 <= Qfloor (seconds / 60) < 60).
  { split.
    - apply floor_lower. change (inject_Z 0) with 0%Q.
      apply Qle_shift_div_l; [reflexivity | lra].
    - apply floor_upper. change (inject_Z 60) with 60%Q.
      apply Qlt_shift_div_r; [reflexivity | lra]. }
  assert (E : formatUptime seconds = Spec.clause (Qfloor (seconds / 60)) "minute").
  { rewrite formatUptime_clauses. cbv zeta.
    rewrite (days_of_minutes seconds), (hours_of_minutes seconds H0),
      (minutes_of_minutes seconds H0).
    rewrite (Z.div_small _ 1440) by lia.
    rewrite (Z.div_small _ 60) by lia.
    rewrite (Z.mod_small _ 60) by lia.
    reflexivity. }
  split; [exact E |].
  intros H60. rewrite E.
  replace (Qfloor (seconds / 60)) with 0; [reflexivity |].
  symmetry. apply floor_unique.
  - change (inject_Z 0) with 0%Q. apply Qle_shift_div_l; [reflexivity | lra].
  - change (inject_Z (0 + 1)) with 1%Q. apply Qlt_shift_div_r; [reflexivity | lra].
Qed.

Lemma formatUptime_below_hour_witness :
  formatUptime (599 # 10) = "0 minute".
Proof.
  apply (formatUptime_below_hour (599 # 10)); split; reflexivity || discriminate.
Defined.

Section NegativeUptime.

Local Open Scope Q_scope.

Lemma rem_negative (x y : Q) :
  x < 0 -> 0 < y -> - y < JS.rem x y <= 0.
Proof.
  intros Hx Hy. unfold JS.rem, JS.Math_trunc.
  assert (Hz : x / y < 0).
  { apply Qlt_shift_div_r; [exact Hy | lra]. }
  destruct (Qle_bool 0 (x / y)) eqn:E.
  { apply Qle_bool_iff in E. lra. }
  pose proof (Qle_ceiling (x / y)) as Hlo.
  pose proof (Qceiling_lt (x / y)) as Hhi.
  unfold Z.sub in Hhi. rewrite inject_Z_plus in Hhi.
  change (inject_Z (- (1))) with (- (1)) in Hhi.
  set (c := inject_Z (Qceiling (x / y))) in *.
  assert (Ex : x == x / y * y) by (field; lra).
  split.
  - assert (y * (c - 1) < x / y * y) by nra. lra.
  - assert (x / y * y <= y * c) by nra. lra.
Qed.

Lemma floor_nonpos (x : Q) : x <= 0 -> (Qfloor x <= 0)%Z.
Proof.
  intros H. rewrite Zle_Qle. apply Qle_trans with x; [apply Qfloor_le | exact H].
Qed.

End NegativeUptime.

(** X4. On a negative number of seconds no day clause and no hour clause
    is written; the text is a minute count between -60 and 0 followed by
    the singular " minute". *)
Theorem formatUptime_negative (seconds : Q) :
  (seconds < 0)%Q ->
  exists n, -60 <= n <= 0
            /\ formatUptime seconds = JS.Number_toString n ++ " minute".
Proof.
  intros H.
  destruct (rem_negative seconds (3600 * 24) H eq_refl) as [Hd1 Hd2].
  destruct (rem_negative seconds 3600 H eq_refl) as [Hh1 Hh2].
  exists (JS.Math_floor (JS.rem seconds 3600 / 60)).
  assert (Hdays : JS.Math_floor (seconds / (3600 * 24)) <= 0).
  { apply floor_nonpos. apply Qle_shift_div_r; [reflexivity | lra]. }
  assert (Hhours : JS.Math_floor (JS.rem seconds (3600 * 24) / 3600) <= 0).
  { apply floor_nonpos. apply Qle_shift_div_r; [reflexivity | lra]. }
  assert (Hmin : -60 <= JS.Math_floor (JS.rem seconds 3600 / 60) <= 0).
  { split.
    - apply floor_lower. change (inject_Z (-60)) with (-60)%Q.
      apply Qle_shift_div_l; [reflexivity | lra].
    - apply floor_nonpos. apply Qle_shift_div_r; [reflexivity | lra]. }
  split; [exact Hmin |].
  rewrite formatUptime_clauses. cbv zeta. unfold Spec.clause.
  rewrite (proj2 (Z.ltb_ge 0 _) Hdays), (proj2 (Z.ltb_ge 0 _) Hhours).
  rewrite (proj2 (Z.ltb_ge 1 _)) by lia.
  reflexivity.
Qed.

Lemma formatUptime_negative_witness :
  exists n, -60 <= n <= 0
            /\ formatUptime (-100) = JS.Number_toString n ++ " minute".
Proof. apply (formatUptime_negative (-100)). reflexivity. Defined.

(** * The uptime texts and the pattern of the test suite *)

Section HumanReadable.

Import Tests.

Lemma human_readable_append (pre s : string) :
  human_readable s = true -> human_readable (pre ++ s) = true.
Proof.
  intros H. induction pre as [|c pre IH]; [exact H |].
  cbn [append human_readable]. rewrite IH. apply orb_true_r.
Qed.

(** The decimal numeral of an unsigned number ends in a digit. *)
Lemma uint_ends_in_digit (d : Decimal.uint) (rest : string) :
  d <> Decimal.Nil ->
  spaces_unit rest = true ->
  human_readable (NilEmpty.string_of_uint d ++ rest) = true.
Proof.
  intros Hd Hrest. induction d as [|d IH|d IH|d IH|d IH|d IH|d IH|d IH|d IH|d IH|d IH];
    [congruence | ..];
    (destruct d;
     [ cbn [NilEmpty.string_of_uint append human_readable digits_spaces_unit];
       rewrite Hrest, orb_true_r; reflexivity
     | cbn [NilEmpty.string_of_uint append human_readable] in *;
       rewrite IH by discriminate; apply orb_true_r .. ]).
Qed.

Lemma number_then_unit (n : Z) (rest : string) :
  spaces_unit rest = true ->
  human_readable (JS.Number_toString n ++ rest) = true.
Proof.
  intros Hrest. unfold JS.Number_toString.
  destruct n as [|p|p]; cbn [Z.to_int NilZero.string_of_int].
  - cbn. rewrite Hrest, orb_true_r. reflexivity.
  - unfold NilZero.string_of_uint.
    pose proof (uint_ends_in_digit (Pos.to_uint p) rest) as H.
    destruct (Pos.to_uint p) eqn:E;
      try (apply H; [discriminate | exact Hrest]).
    cbn [append human_readable digits_spaces_unit].
    rewrite Hrest, orb_true_r. reflexivity.
  - unfold NilZero.string_of_uint.
    pose proof (uint_ends_in_digit (Pos.to_uint p) rest) as H.
    destruct (Pos.to_uint p) eqn:E;
      try (cbn [append human_readable]; rewrite H by (discriminate || exact Hrest);
           apply orb_true_r).
    cbn [append human_readable digits_spaces_unit].
    rewrite Hrest, !orb_true_r. reflexivity.
Qed.

Lemma formatUptime_human_readable (seconds : Q) :
  human_readable (formatUptime seconds) = true.
Proof.
  rewrite formatUptime_clauses. cbv zeta.
  rewrite <- append_assoc. apply human_readable_append.
  unfold Spec.clause. apply number_then_unit.
  destruct (1 <? _); reflexivity.
Qed.

End HumanReadable.

(** * More on the statistics snapshot *)

Section StatsMore.

Variable pkg : Packages.
Variable req : Request.
Variable w : World.
Hypothesis reaches : reaches_routes pkg req = true.
Hypothesis is_get : method req = GET.
Hypothesis at_stats : path_matches "/api/stats" (path req) = true.

(** The world after the handler: four draws and two readings of the free
    memory are consumed. *)
Lemma serve_stats_world :
  snd (serve pkg req w)
  = Nat.iter 4 Host.random_consumed (Nat.iter 2 Host.freemem_consumed w).
Proof.
  rewrite (serve_stats pkg req reaches w is_get at_stats). reflexivity.
Qed.

Lemma serve_stats_uptime :
  exists v w',
    serve pkg req w = (Sent {| statusCode := 200; payload := Json v |}, w')
    /\ prop2 "uptime" "server" v
       = Some (VString (formatUptime (process_uptime w)))
    /\ prop2 "uptime" "system" v
       = Some (VString (formatUptime (os_uptime w))).
Proof.
  rewrite (serve_stats pkg req reaches w is_get at_stats).
  do 2 eexists. split; [reflexivity |]. split; reflexivity.
Qed.

End StatsMore.

Lemma VInt_inj (a b : Z) : VInt a = VInt b -> a = b.
Proof. unfold VInt, inject_Z. intros H. now injection H. Qed.

(** X5. The two uptime texts of every GET /api/stats response, the one
    of the process and the one of the system, match the pattern
    /\d+\s+(minute|hour|day)/ that the test suite expects, whatever the
    two uptimes are. *)
Theorem stats_uptime_human_readable (pkg : Packages) (req : Request) (w : World) :
  reaches_routes pkg req = true ->
  method req = GET ->
  path_matches "/api/stats" (path req) = true ->
  exists v server system,
    fst (serve pkg req w) = Sent {| statusCode := 200; payload := Json v |}
    /\ prop2 "uptime" "server" v = Some (VString server)
    /\ prop2 "uptime" "system" v = Some (VString system)
    /\ server = formatUptime (process_uptime w)
    /\ system = formatUptime (os_uptime w)
    /\ Tests.human_readable server = true
    /\ Tests.human_readable system = true.
Proof.
  intros Hreach Hget Hpath.
  destruct (serve_stats_uptime pkg req w Hreach Hget Hpath)
    as (v & w' & Hserve & Hserver & Hsystem).
  exists v. do 2 eexists. rewrite Hserve.
  split; [reflexivity |]. split; [exact Hserver |]. split; [exact Hsystem |].
  split; [reflexivity |]. split; [reflexivity |].
  split; apply formatUptime_human_readable.
Qed.

Lemma stats_uptime_human_readable_witness :
  exists v server system,
    fst (serve Example.pkg (Example.request GET "/api/stats") Example.host)
    = Sent {| statusCode := 200; payload := Json v |}
    /\ prop2 "uptime" "server" v = Some (VString server)
    /\ prop2 "uptime" "system" v = Some (VString system)
    /\ server = formatUptime 125
    /\ system = formatUptime 90000
    /\ Tests.human_readable server = true
    /\ Tests.human_readable system = true.
Proof.
  apply (stats_uptime_human_readable Example.pkg
           (Example.request GET "/api/stats") Example.host); reflexivity.
Defined.

Section StatsArithmetic.

Local Open Scope Q_scope.

Lemma floor_mebibytes (n : Z) :
  JS.Math_floor (inject_Z n / 1024 / 1024) = (n / 1048576)%Z.
Proof.
  unfold JS.Math_floor. rewrite (Zdiv_Qdiv n 1048576).
  apply Qfloor_comp. change (inject_Z 1048576) with 1048576. field.
Qed.


Lemma floor_scaled (n k : Z) (c : Q) :
  (0 < k)%Z ->
  Qfloor (inject_Z n / inject_Z k * inject_Z k + c) = Qfloor (inject_Z n + c).
Proof.
  intros Hk. apply Qfloor_comp.
  assert (~ inject_Z k == 0).
  { change 0 with (inject_Z 0). rewrite inject_Z_injective. lia. }
  field. assumption.
Qed.



End StatsArithmetic.

(** X7. In every GET /api/stats response the memory figures are whole
    mebibytes, rounded down: memory.total is the integer quotient of the
    total memory in bytes by 1048576, and memory.free that of the first
    reading of the free memory. *)
Theorem stats_memory_mebibytes (pkg : Packages) (req : Request) (w : World) :
  reaches_routes pkg req = true ->
  method req = GET ->
  path_matches "/api/stats" (path req) = true ->
  exists v,
    fst (serve pkg req w) = Sent {| statusCode := 200; payload := Json v |}
    /\ prop2 "memory" "total" v = Some (VInt (os_totalmem w / 1048576))
    /\ prop2 "memory" "free" v
       = Some (VInt (os_freemem w (freemem_calls w) / 1048576)).
Proof.
  intros Hreach Hget Hpath.
  destruct (serve_stats_fields pkg req w Hreach Hget Hpath)
    as (v & w' & Hserve & _ & Htotal & Hfree & _).
  exists v. rewrite Hserve. split; [reflexivity |].
  rewrite Htotal, Hfree, !floor_mebibytes. split; reflexivity.
Qed.

Lemma stats_memory_mebibytes_witness :
  exists v,
    fst (serve Example.pkg (Example.request GET "/api/stats") Example.host)
    = Sent {| statusCode := 200; payload := Json v |}
    /\ prop2 "memory" "total" v = Some (VInt (3221225472 / 1048576))
    /\ prop2 "memory" "free" v = Some (VInt (1073741824 / 1048576)).
Proof.
  apply (stats_memory_mebibytes Example.pkg (Example.request GET "/api/stats")
                                Example.host); reflexivity.
Defined.





Section RangesAttained.

Local Open Scope Q_scope.




End RangesAttained.



(** * More on routing *)

Section RoutingMore.

Variable pkg : Packages.
Variable req : Request.
Variable w : World.

(** The first layer ahead of the routes that does not hand the request
    on decides the reply. *)
Lemma handle_first_answer (before : list (Request -> Outcome))
    (mw : Request -> Outcome) (rest : list Layer) :
  forallb (fun fn => passes (fn req)) before = true ->
  runState (handle (map middleware before ++ middleware mw :: rest) None req) w
  = match mw req with
    | Next => runState (handle rest None req) w
    | NextErr e => runState (handle rest (Some e) req) w
    | Respond r => (Sent r, w)
    | SetTimeout cb ms => (SentAfter ms cb, w)
    end.
Proof.
  intros H. rewrite handle_passing by exact H.
  cbn. destruct (mw req); reflexivity.
Qed.

Lemma app_split (i : nat) (mw : Request -> Outcome) :
  nth_error (pre_route pkg) i = Some mw ->
  app pkg
  = (map middleware (firstn i (pre_route pkg))
     ++ middleware mw :: skipn (S i) (app pkg))%list.
Proof.
  intros H. do 7 (destruct i as [|i]; [injection H as <-; reflexivity |]).
  destruct i; discriminate H.
Qed.

Hypothesis reaches : reaches_routes pkg req = true.

Lemma serve_health :
  method req = GET ->
  path_matches "/api/health" (path req) = true ->
  serve pkg req w
  = (Sent {| statusCode := 200;
             payload := Json (VObject [
               ("status", VString "OK");
               ("timestamp", VDate (clock w));
               ("uptime", VNumber (process_uptime w))]) |}, w).
Proof.
  intros Hm Hp. pose proof (get_route_matches req _ Hm Hp) as H.
  rewrite (serve_routes pkg req reaches). unfold routes. cbn [List.app].
  rewrite (handle_route_skip _ GET "/") by path_known Hp.
  erewrite handle_route_hit; [| exact H | reflexivity].
  reflexivity.
Qed.

Lemma serve_home :
  method req = GET ->
  path_matches "/" (path req) = true ->
  serve pkg req w
  = match res_sendFile pkg "public/index.html" with
    | Respond r => (Sent r, w)
    | SetTimeout cb ms => (SentAfter ms cb, w)
    | NextErr e => runState (handle (skipn 8 (app pkg)) (Some e) req) w
    | Next => runState (handle (skipn 8 (app pkg)) None req) w
    end.
Proof.
  intros Hm Hp. pose proof (get_route_matches req _ Hm Hp) as H.
  rewrite (serve_routes pkg req reaches). unfold routes. cbn [List.app].
  erewrite handle_route_hit; [| exact H | reflexivity].
  destruct (res_sendFile pkg "public/index.html"); reflexivity.
Qed.

Lemma control_unmatched (a : Spec.Action) :
  method req <> POST ->
  path_matches (Spec.control_path a) (path req) = true ->
  matches_route pkg req = false.
Proof.
  intros Hm Hp. unfold matches_route, routes. cbn [existsb].
  assert (Hpost : method_matches POST (method req) = false).
  { destruct (method req); try reflexivity. congruence. }
  repeat match goal with
         | |- (route_matches GET ?p req || _)%bool = false =>
             replace (route_matches GET p req) with false
               by (symmetry; destruct a; path_known Hp);
             cbn [orb]
         | |- (route_matches POST ?p req || _)%bool = false =>
             replace (route_matches POST p req) with false
               by (unfold route_matches; rewrite Hpost; symmetry; apply andb_false_r);
             cbn [orb]
         end.
  reflexivity.
Qed.

End RoutingMore.

(** X11. Every GET request that reaches the routes and whose path is
    /api/health, in any letter case and with or without a trailing
    slash, gets status 200 with status "OK", the current time and the
    uptime of the process in seconds; the host is left as it was. *)
Theorem health_reply (pkg : Packages) (req : Request) (w : World) :
  reaches_routes pkg req = true ->
  method req = GET ->
  path_matches "/api/health" (path req) = true ->
  serve pkg req w
  = (Sent {| statusCode := 200;
             payload := Json (VObject [
               ("status", VString "OK");
               ("timestamp", VDate (clock w));
               ("uptime", VNumber (process_uptime w))]) |}, w).
Proof. intros Hreach Hm Hp. now apply serve_health. Qed.

Lemma health_reply_witness :
  serve Example.pkg (Example.request GET "/API/Health/") Example.host
  = (Sent {| statusCode := 200;
             payload := Json (VObject [
               ("status", VString "OK");
               ("timestamp", VDate 1700000000000);
               ("uptime", VNumber 125)]) |}, Example.host).
Proof.
  apply (health_reply Example.pkg (Example.request GET "/API/Health/")
                      Example.host); reflexivity.
Defined.

(** X12. For a GET request for / that reaches the routes, the reply is
    what [res.sendFile] makes of public/index.html: the file when it
    sends one, and, when it reports a failure (a missing file), the
    response of the error handler with status 500, not a 404. *)
Theorem home_reply (pkg : Packages) (req : Request) (w : World) :
  reaches_routes pkg req = true ->
  method req = GET ->
  path_matches "/" (path req) = true ->
  (forall r, res_sendFile pkg "public/index.html" = Respond r ->
             serve pkg req w = (Sent r, w))
  /\ (forall err, res_sendFile pkg "public/index.html" = NextErr err ->
        serve pkg req w
        = (Sent {| statusCode := 500;
                   payload := failure_body
                                (if is_production (NODE_ENV w)
                                 then "Server error" else message err) |}, w)).
Proof.
  intros Hreach Hm Hp. split.
  - intros r E. rewrite (serve_home pkg req w Hreach Hm Hp), E. reflexivity.
  - intros err E. rewrite (serve_home pkg req w Hreach Hm Hp), E.
    apply (failure_reaches_error_handler pkg req err w 8). lia.
Qed.

Lemma home_reply_witness :
  serve Example.pkg (Example.request GET "/") Example.host
  = (Sent {| statusCode := 500;
             payload := failure_body "ENOENT: no such file or directory" |},
     Example.host).
Proof.
  apply (proj2 (home_reply Example.pkg (Example.request GET "/") Example.host
                          eq_refl eq_refl eq_refl) NodeModules.not_a_file).
  reflexivity.
Defined.

(** X13. The layers ahead of the routes run in the order of their
    registration, and the first of them that answers decides the reply:
    no route handler runs and the host is left as it was.  So a file of
    the public directory shadows the route of the same path, and what
    the cors layer answers to a preflight request is final. *)
Theorem first_answer_wins (pkg : Packages) (req : Request) (w : World)
    (i : nat) (mw : Request -> Outcome) (r : Response) :
  nth_error (pre_route pkg) i = Some mw ->
  forallb (fun fn => passes (fn req)) (firstn i (pre_route pkg)) = true ->
  mw req = Respond r ->
  serve pkg req w = (Sent r, w).
Proof.
  intros Hnth Hbefore Hanswer. unfold serve.
  rewrite (app_split pkg i mw Hnth).
  rewrite handle_first_answer by exact Hbefore.
  now rewrite Hanswer.
Qed.

Lemma first_answer_wins_witness :
  serve (NodeModules.packages Sample.shadowing)
        (Example.request GET "/api/stats") Example.host
  = (Sent {| statusCode := 200; payload := File "public/api/stats" |},
     Example.host).
Proof.
  apply (first_answer_wins (NodeModules.packages Sample.shadowing)
           (Example.request GET "/api/stats") Example.host 6
           (NodeModules.express_static Sample.shadowing)); reflexivity.
Defined.

(** X15. The reply to a control action is sent by a timer: after 1000
    milliseconds for start and stop, after 2000 for restart; nothing is
    sent before. *)
Theorem control_delay (pkg : Packages) (req : Request) (w : World)
    (a : Spec.Action) :
  reaches_routes pkg req = true ->
  method req = POST ->
  path_matches (Spec.control_path a) (path req) = true ->
  delay_of (fst (serve pkg req w))
  = Some (match a with Spec.restart => 2000 | _ => 1000 end)
  /\ status_of (fst (serve pkg req w)) = None.
Proof.
  intros Hreach Hm Hp. rewrite (serve_control pkg req w Hreach a Hm Hp).
  split; reflexivity.
Qed.

Lemma control_delay_witness :
  delay_of (fst (serve Example.pkg
                       (Example.post_json "/api/control/restart" Example.test_data)
                       Example.host)) = Some 2000
  /\ status_of (fst (serve Example.pkg
                           (Example.post_json "/api/control/restart"
                                              Example.test_data)
                           Example.host)) = None.
Proof.
  apply (control_delay Example.pkg
           (Example.post_json "/api/control/restart" Example.test_data)
           Example.host Spec.restart); reflexivity.
Defined.

(** * What a request leaves of the host *)

Section HostUntouched.

Variable pkg : Packages.
Variable req : Request.
Variable w : World.

(** Running the stack from [w], with or without a pending error, ends in
    [w]. *)
Let keeps (stack : list Layer) : Prop :=
  (forall e, snd (runState (handle stack (Some e) req) w) = w)
  /\ snd (runState (handle stack None req) w) = w.

Let pure (fn : Handler) : Prop :=
  forall o w', runState (fn req) w = (o, w') -> w' = w.

Lemma keeps_tail : keeps [use_error error_handler; use not_found].
Proof. split; [intros e |]; reflexivity. Qed.

Lemma keeps_route m pattern (fn : Handler) (stack : list Layer) :
  pure fn -> keeps stack -> keeps (route m pattern fn :: stack).
Proof.
  intros Hfn [Herr Hok]. split.
  - intros e. cbn. apply Herr.
  - cbn. destruct (route_matches m pattern req); [| exact Hok].
    cbn. destruct (runState (fn req) w) as [o w'] eqn:E.
    apply Hfn in E. subst w'.
    destruct o; cbn; [exact Hok | apply Herr | reflexivity | reflexivity].
Qed.

Lemma keeps_route_skipped m pattern (fn : Handler) (stack : list Layer) :
  route_matches m pattern req = false ->
  keeps stack -> keeps (route m pattern fn :: stack).
Proof.
  intros Hskip [Herr Hok]. split.
  - intros e. cbn. apply Herr.
  - cbn. rewrite Hskip. exact Hok.
Qed.

Lemma keeps_middleware (mw : Request -> Outcome) (stack : list Layer) :
  keeps stack -> keeps (middleware mw :: stack).
Proof.
  intros [Herr Hok]. split.
  - intros e. cbn. apply Herr.
  - cbn. destruct (mw req); cbn; [exact Hok | apply Herr | reflexivity | reflexivity].
Qed.

Lemma pure_ret (o : Outcome) : pure (fun _ => ret o).
Proof. intros o' w' E. cbn in E. now injection E. Qed.

Lemma pure_health : pure health.
Proof. intros o' w' E. cbn in E. now injection E. Qed.

Lemma keeps_app :
  route_matches GET "/api/stats" req = false -> keeps (app pkg).
Proof.
  intros Hskip. unfold app, pre_route, routes. cbn [map List.app].
  do 7 apply keeps_middleware.
  apply keeps_route; [apply pure_ret |].
  apply keeps_route; [apply pure_health |].
  apply keeps_route_skipped; [exact Hskip |].
  do 3 (apply keeps_route; [apply pure_ret |]).
  apply keeps_tail.
Qed.

End HostUntouched.

(** X16. Only the statistics route reads the host: every other request,
    whatever the layers ahead of the routes and the handlers do with it
    (answer, fail or hand on), leaves the random source, the readings of
    the free memory and the rest of the host as they were. *)
Theorem only_stats_reads_host (pkg : Packages) (req : Request) (w : World) :
  route_matches GET "/api/stats" req = false ->
  snd (serve pkg req w) = w.
Proof. intros H. apply (keeps_app pkg req w H). Qed.

Lemma only_stats_reads_host_witness :
  snd (serve Example.pkg
             (Example.post_json "/api/control/start" Example.malformed)
             Example.host) = Example.host.
Proof.
  apply (only_stats_reads_host Example.pkg
           (Example.post_json "/api/control/start" Example.malformed)
           Example.host).
  reflexivity.
Defined.

(** * The 404 response on the wire *)

Section NotFoundOnWire.

Variable pkg : Packages.
Variable req : Request.
Variable w : World.
Hypothesis reaches : reaches_routes pkg req = true.
Hypothesis unmatched : matches_route pkg req = false.

Lemma unmatched_on_wire :
  snd (serve pkg req w) = w
  /\ on_wire req (fst (serve pkg req w))
     = Sent {| statusCode := 404;
               payload :=
                 if Method_eqb (method req) HEAD then Empty
                 else Json (VObject [
                   ("error", VString "Not Found");
                   ("message",
                     VString ("The requested resource at " ++ path req
                              ++ " was not found"))]) |}.
Proof.
  rewrite (serve_unmatched pkg req w reaches unmatched). split; [reflexivity |].
  unfold on_wire. cbn [fst]. destruct (Method_eqb (method req) HEAD); reflexivity.
Qed.

End NotFoundOnWire.

(** C7 (amended). For every request that all the layers ahead of the
    routes hand on (so no static file is served, the body parsers accept
    the payload and the request is not a CORS preflight) and whose method
    and path match no defined route, the response has status 404 and the
    body {error: "Not Found", message: "The requested resource at <path>
    was not found"}, where <path> is the path of the request; for a HEAD
    request the response has the status 404 and carries no body. *)
Theorem unmatched_404 (pkg : Packages) (req : Request) (w : World) :
  reaches_routes pkg req = true ->
  matches_route pkg req = false ->
  snd (serve pkg req w) = w
  /\ on_wire req (fst (serve pkg req w))
     = Sent {| statusCode := 404;
               payload :=
                 if Method_eqb (method req) HEAD then Empty
                 else Json (VObject [
                   ("error", VString "Not Found");
                   ("message",
                     VString ("The requested resource at " ++ path req
                              ++ " was not found"))]) |}.
Proof. intros Hreach Hroute. now apply unmatched_on_wire. Qed.

Lemma unmatched_404_witness :
  (snd (serve Example.pkg (Example.request GET "/no/such/path") Example.host)
   = Example.host
   /\ on_wire (Example.request GET "/no/such/path")
              (fst (serve Example.pkg (Example.request GET "/no/such/path")
                          Example.host))
      = Sent {| statusCode := 404;
                payload := Json (VObject [
                  ("error", VString "Not Found");
                  ("message",
                    VString "The requested resource at /no/such/path was not found")]) |})
  /\ on_wire (Example.request HEAD "/no/such/path")
             (fst (serve Example.pkg (Example.request HEAD "/no/such/path")
                         Example.host))
     = Sent {| statusCode := 404; payload := Empty |}.
Proof.
  split.
  - apply (unmatched_404 Example.pkg (Example.request GET "/no/such/path")
                         Example.host); reflexivity.
  - apply (unmatched_404 Example.pkg (Example.request HEAD "/no/such/path")
                         Example.host); reflexivity.
Defined.

(** X14. The control actions answer to POST only: a request with any
    other method for the path of a control action, if it reaches the
    routes, gets the 404 response (without a body when the method is
    HEAD), no timer is started and the host is left as it was. *)
Theorem control_needs_post (pkg : Packages) (req : Request) (w : World)
    (a : Spec.Action) :
  reaches_routes pkg req = true ->
  method req <> POST ->
  path_matches (Spec.control_path a) (path req) = true ->
  snd (serve pkg req w) = w
  /\ on_wire req (fst (serve pkg req w))
     = Sent {| statusCode := 404;
               payload :=
                 if Method_eqb (method req) HEAD then Empty
                 else Json (VObject [
                   ("error", VString "Not Found");
                   ("message",
                     VString ("The requested resource at " ++ path req
                              ++ " was not found"))]) |}.
Proof.
  intros Hreach Hm Hp. apply unmatched_on_wire; [exact Hreach |].
  now apply control_unmatched with a.
Qed.

Lemma control_needs_post_witness :
  (snd (serve Example.pkg (Example.request GET "/api/control/stop") Example.host)
   = Example.host
   /\ on_wire (Example.request GET "/api/control/stop")
              (fst (serve Example.pkg (Example.request GET "/api/control/stop")
                          Example.host))
      = Sent {| statusCode := 404;
                payload := Json (VObject [
                  ("error", VString "Not Found");
                  ("message",
                    VString "The requested resource at /api/control/stop was not found")]) |})
  /\ on_wire (Example.request HEAD "/api/control/stop")
             (fst (serve Example.pkg (Example.request HEAD "/api/control/stop")
                         Example.host))
     = Sent {| statusCode := 404; payload := Empty |}.
Proof.
  split.
  - apply (control_needs_post Example.pkg
             (Example.request GET "/api/control/stop") Example.host Spec.stop);
      [reflexivity | discriminate | reflexivity].
  - apply (control_needs_post Example.pkg
             (Example.request HEAD "/api/control/stop") Example.host Spec.stop);
      [reflexivity | discriminate | reflexivity].
Defined.

(** * Rounding to binary64 *)

Section Rounding64.

Local Open Scope Q_scope.

Ltac compare_prop H :=
  first [ apply <- Qeq_alt in H | apply <- Qlt_alt in H | apply <- Qgt_alt in H ].

Lemma rne_bounds (x : Q) : (Qfloor x <= Double.rne x <= Qfloor x + 1)%Z.
Proof.
  unfold Double.rne. cbv zeta.
  destruct (x - inject_Z (Qfloor x) ?= 1 # 2); [destruct (Z.even _) | |]; lia.
Qed.

Lemma rne_integer (n : Z) : Double.rne (inject_Z n) = n.
Proof.
  unfold Double.rne. cbv zeta. rewrite Qfloor_Z.
  assert (E : (inject_Z n - inject_Z n ?= 1 # 2) = Lt).
  { rewrite <- Qlt_alt. ring_simplify. reflexivity. }
  now rewrite E.
Qed.

Lemma rne_mono (x y : Q) : x <= y -> (Double.rne x <= Double.rne y)%Z.
Proof.
  intros H. pose proof (Qfloor_resp_le x y H) as Hf.
  destruct (Z.eq_dec (Qfloor x) (Qfloor y)) as [E|E].
  - unfold Double.rne. cbv zeta. rewrite <- E.
    destruct (x - inject_Z (Qfloor x) ?= 1 # 2) eqn:Cx;
      destruct (y - inject_Z (Qfloor x) ?= 1 # 2) eqn:Cy;
      try (destruct (Z.even (Qfloor x))); try lia; exfalso;
      compare_prop Cx; compare_prop Cy; lra.
  - pose proof (rne_bounds x). pose proof (rne_bounds y). lia.
Qed.

Lemma rne_le_int (x : Q) (n : Z) : x <= inject_Z n -> (Double.rne x <= n)%Z.
Proof. intros H. rewrite <- (rne_integer n). now apply rne_mono. Qed.

Lemma rne_ge_int (x : Q) (n : Z) : inject_Z n <= x -> (n <= Double.rne x)%Z.
Proof. intros H. rewrite <- (rne_integer n). now apply rne_mono. Qed.

Lemma pow2_pos (e : Z) : 0 < 2 ^ e.
Proof. now apply Qpower_0_lt. Qed.

Lemma pow2_plus (a b : Z) : 2 ^ (a + b) == 2 ^ a * 2 ^ b.
Proof. now apply Qpower_plus. Qed.

Lemma pow2_le (a b : Z) : (a <= b)%Z -> 2 ^ a <= 2 ^ b.
Proof. intros H. apply Qpower_le_compat_l; [exact H | discriminate]. Qed.

Lemma pow2_integer (e : Z) : (0 <= e)%Z -> 2 ^ e == inject_Z (2 ^ e).
Proof. intros H. now rewrite (Zpower_Qpower 2 e H). Qed.

(** 2^a is a whole number of units 2^q when q <= a. *)
Lemma pow2_ratio (a q : Z) :
  (q <= a)%Z -> 2 ^ a / 2 ^ q == inject_Z (2 ^ (a - q)).
Proof.
  intros H. rewrite <- pow2_integer by lia.
  replace a with ((a - q) + q)%Z at 1 by lia.
  rewrite pow2_plus. field. pose proof (pow2_pos q). lra.
Qed.

Lemma log2_bounds (a : Z) :
  (0 < a)%Z -> inject_Z (2 ^ Z.log2 a) <= inject_Z a < inject_Z (2 ^ (Z.log2 a + 1)).
Proof.
  intros H. destruct (Z.log2_spec a H) as [Hlo Hhi].
  rewrite <- Zle_Qle, <- Zlt_Qlt. unfold Z.succ in Hhi. lia.
Qed.

Lemma binade_spec (x : Q) :
  0 < x -> 2 ^ Double.binade x <= x < 2 ^ (Double.binade x + 1).
Proof.
  intros Hx. destruct x as [a b].
  assert (Ha : (0 < a)%Z).
  { unfold Qlt in Hx. cbn in Hx. lia. }
  unfold Double.binade. cbn [Qnum Qden].
  set (la := Z.log2 a). set (lb := Z.log2 (Zpos b)).
  destruct (log2_bounds a Ha) as [Ha1 Ha2]. fold la in Ha1, Ha2.
  destruct (log2_bounds (Zpos b) eq_refl) as [Hb1 Hb2]. fold lb in Hb1, Hb2.
  assert (Hla : (0 <= la)%Z) by apply Z.log2_nonneg.
  assert (Hlb : (0 <= lb)%Z) by apply Z.log2_nonneg.
  rewrite <- !pow2_integer in Ha1, Ha2, Hb1, Hb2 by lia.
  assert (Ex : a # b == inject_Z a / inject_Z (Zpos b)) by apply Qmake_Qdiv.
  assert (HB : 0 < inject_Z (Zpos b)) by reflexivity.
  assert (Exb : (a # b) * inject_Z (Zpos b) == inject_Z a).
  { rewrite Ex. field. lra. }
  pose proof (pow2_pos lb) as Plb. pose proof (pow2_pos (lb + 1)) as Plb1.
  (* x < 2^(la - lb + 1) and 2^(la - lb - 1) < x *)
  assert (Hup : a # b < 2 ^ (la - lb + 1)).
  { replace (la - lb + 1)%Z with ((la + 1) + - lb)%Z by lia.
    rewrite pow2_plus, Qpower_opp.
    apply Qlt_shift_div_l; [exact Plb |]. nra. }
  assert (Hdown : 2 ^ (la - lb - 1) < a # b).
  { replace (la - lb - 1)%Z with (la + - (lb + 1))%Z by lia.
    rewrite pow2_plus, Qpower_opp.
    apply Qlt_shift_div_r; [exact Plb1 |]. nra. }
  destruct (Qle_bool (2 ^ (la - lb)) (a # b)) eqn:E.
  - apply Qle_bool_iff in E. split; assumption.
  - assert (a # b < 2 ^ (la - lb)).
    { apply Qnot_le_lt. intros C. apply Qle_bool_iff in C. congruence. }
    replace (la - lb - 1 + 1)%Z with (la - lb)%Z by lia.
    split; [apply Qlt_le_weak |]; assumption.
Qed.

Lemma binade_mono (x y : Q) :
  0 < x -> x <= y -> (Double.binade x <= Double.binade y)%Z.
Proof.
  intros Hx Hxy.
  destruct (binade_spec x Hx) as [Hx1 _].
  destruct (binade_spec y (Qlt_le_trans _ _ _ Hx Hxy)) as [_ Hy2].
  assert (H : 2 ^ Double.binade x < 2 ^ (Double.binade y + 1)) by lra.
  apply Qpower_lt_compat_l_inv in H; [lia | reflexivity].
Qed.

(** A positive number that is at most a power of two rounds to at most
    that power, when the power is a whole number of last places. *)
Lemma round_pos_le_pow2 (x : Q) (a : Z) :
  0 < x -> x <= 2 ^ a -> (Double.ulp_exponent x <= a)%Z ->
  Double.round_pos x <= 2 ^ a.
Proof.
  intros Hx Hxa Hq. unfold Double.round_pos. cbv zeta.
  set (q := Double.ulp_exponent x) in *.
  pose proof (pow2_pos q) as Pq.
  assert (H : (Double.rne (x / 2 ^ q) <= 2 ^ (a - q))%Z).
  { apply rne_le_int. rewrite <- pow2_ratio by exact Hq.
    apply Qmult_le_compat_r; [exact Hxa |]. apply Qinv_le_0_compat. lra. }
  rewrite Zle_Qle in H. rewrite <- pow2_ratio in H by exact Hq.
  apply Qle_trans with (2 ^ a / 2 ^ q * 2 ^ q).
  - apply Qmult_le_compat_r; [exact H | lra].
  - apply Qle_lteq. right. field. lra.
Qed.

Lemma round_pos_ge_pow2 (x : Q) (a : Z) :
  0 < x -> 2 ^ a <= x -> (Double.ulp_exponent x <= a)%Z ->
  2 ^ a <= Double.round_pos x.
Proof.
  intros Hx Hxa Hq. unfold Double.round_pos. cbv zeta.
  set (q := Double.ulp_exponent x) in *.
  pose proof (pow2_pos q) as Pq.
  assert (H : (2 ^ (a - q) <= Double.rne (x / 2 ^ q))%Z).
  { apply rne_ge_int. rewrite <- pow2_ratio by exact Hq.
    apply Qmult_le_compat_r; [exact Hxa |]. apply Qinv_le_0_compat. lra. }
  rewrite Zle_Qle in H. rewrite <- pow2_ratio in H by exact Hq.
  apply Qle_trans with (2 ^ a / 2 ^ q * 2 ^ q).
  - apply Qle_lteq. right. field. lra.
  - apply Qmult_le_compat_r; [exact H | lra].
Qed.

Lemma round_pos_mono (x y : Q) :
  0 < x -> x <= y -> Double.round_pos x <= Double.round_pos y.
Proof.
  intros Hx Hxy.
  assert (Hy : 0 < y) by lra.
  pose proof (binade_mono x y Hx Hxy) as Hb.
  destruct (binade_spec x Hx) as [Hx1 Hx2].
  destruct (binade_spec y Hy) as [Hy1 Hy2].
  destruct (Z.eq_dec (Double.ulp_exponent x) (Double.ulp_exponent y)) as [E|E].
  - unfold Double.round_pos. cbv zeta. rewrite <- E.
    pose proof (pow2_pos (Double.ulp_exponent x)) as Pq.
    apply Qmult_le_compat_r; [| lra].
    rewrite <- Zle_Qle. apply rne_mono.
    apply Qmult_le_compat_r; [exact Hxy |]. apply Qinv_le_0_compat. lra.
  - (* different last places: the binade of y starts at a power of two
       between the two numbers *)
    assert (Hq : (Double.ulp_exponent x < Double.ulp_exponent y)%Z).
    { unfold Double.ulp_exponent in *. lia. }
    assert (Hby : (Double.ulp_exponent y = Double.binade y - 52)%Z).
    { unfold Double.ulp_exponent in *. lia. }
    assert (Hbx : (Double.binade x + 1 <= Double.binade y)%Z).
    { unfold Double.ulp_exponent in *. lia. }
    apply Qle_trans with (2 ^ Double.binade y).
    + apply round_pos_le_pow2; [exact Hx | | lia].
      apply Qle_trans with (2 ^ (Double.binade x + 1)); [lra |].
      now apply pow2_le.
    + apply round_pos_ge_pow2; [exact Hy | exact Hy1 | lia].
Qed.

Lemma round_pos_nonneg (x : Q) : 0 < x -> 0 <= Double.round_pos x.
Proof.
  intros Hx. unfold Double.round_pos. cbv zeta.
  pose proof (pow2_pos (Double.ulp_exponent x)) as Pq.
  apply Qmult_le_0_compat; [| lra].
  change 0 with (inject_Z 0). rewrite <- Zle_Qle. apply rne_ge_int.
  change (inject_Z 0) with 0. apply Qle_shift_div_l; [exact Pq | lra].
Qed.

(** Rounding is monotone on the non-negative numbers. *)
Lemma round_mono (x y : Q) :
  0 <= x -> x <= y -> Double.round x <= Double.round y.
Proof.
  intros Hx Hxy. unfold Double.round.
  destruct (x ?= 0) eqn:Cx; destruct (y ?= 0) eqn:Cy;
    compare_prop Cx; compare_prop Cy; try lra.
  - apply round_pos_nonneg. lra.
  - apply round_pos_mono; lra.
Qed.

Lemma rne_error (x : Q) :
  - (1 # 2) <= inject_Z (Double.rne x) - x <= 1 # 2.
Proof.
  unfold Double.rne. cbv zeta.
  pose proof (Qfloor_le x) as Hlo. pose proof (Qlt_floor x) as Hhi.
  rewrite inject_Z_plus in Hhi. change (inject_Z 1) with 1 in Hhi.
  destruct (x - inject_Z (Qfloor x) ?= 1 # 2) eqn:C; compare_prop C.
  - destruct (Z.even (Qfloor x));
      rewrite ?inject_Z_plus; change (inject_Z 1) with 1; lra.
  - lra.
  - rewrite inject_Z_plus. change (inject_Z 1) with 1. lra.
Qed.

Lemma round_pos_error (x : Q) :
  0 < x ->
  - 2 ^ Double.ulp_exponent x <= 2 * (Double.round_pos x - x)
  /\ 2 * (Double.round_pos x - x) <= 2 ^ Double.ulp_exponent x.
Proof.
  intros Hx. unfold Double.round_pos. cbv zeta.
  set (q := Double.ulp_exponent x).
  pose proof (pow2_pos q) as Pq.
  destruct (rne_error (x / 2 ^ q)) as [Hlo Hhi].
  set (k := inject_Z (Double.rne (x / 2 ^ q))) in *.
  assert (E : x == x / 2 ^ q * 2 ^ q) by (field; lra).
  set (n := x / 2 ^ q) in *.
  split; nra.
Qed.

Lemma ulp_exponent_le (x : Q) (a : Z) :
  0 < x -> x < 2 ^ (a + 1) -> (-1022 <= a)%Z ->
  (Double.ulp_exponent x <= a - 52)%Z.
Proof.
  intros Hx Hxa Ha. destruct (binade_spec x Hx) as [Hb _].
  assert (H : 2 ^ Double.binade x < 2 ^ (a + 1)) by lra.
  apply Qpower_lt_compat_l_inv in H; [| reflexivity].
  unfold Double.ulp_exponent. lia.
Qed.

(** The error of a rounding, for a number below 2^(a+1). *)
Lemma round_error (x : Q) (a : Z) :
  0 <= x -> x < 2 ^ (a + 1) -> (-1022 <= a)%Z ->
  - 2 ^ (a - 52) <= 2 * (Double.round x - x)
  /\ 2 * (Double.round x - x) <= 2 ^ (a - 52).
Proof.
  intros Hx Hxa Ha. pose proof (pow2_pos (a - 52)) as Pa.
  unfold Double.round. destruct (x ?= 0) eqn:C; compare_prop C.
  - split; lra.
  - lra.
  - destruct (round_pos_error x C) as [Hlo Hhi].
    pose proof (pow2_le _ _ (ulp_exponent_le x a C Hxa Ha)) as Hq.
    split; lra.
Qed.

Lemma round_error_unit (x : Q) :
  0 <= x <= 1 ->
  - (1 # 9007199254740992) <= Double.round x - x <= 1 # 9007199254740992.
Proof.
  intros [H0 H1].
  destruct (round_error x 0 H0) as [Hlo Hhi]; [change (2 ^ (0 + 1)) with 2; lra | lia |].
  assert (E : 2 ^ (0 - 52) == 1 # 4503599627370496) by reflexivity.
  rewrite E in Hlo, Hhi. split; lra.
Qed.

Lemma round_error_hundred (x : Q) :
  0 <= x <= 100 ->
  - (1 # 140737488355328) <= Double.round x - x <= 1 # 140737488355328.
Proof.
  intros [H0 H1].
  destruct (round_error x 6 H0) as [Hlo Hhi]; [change (2 ^ (6 + 1)) with 128; lra | lia |].
  assert (E : 2 ^ (6 - 52) == 1 # 70368744177664) by reflexivity.
  rewrite E in Hlo, Hhi. split; lra.
Qed.

Lemma round_0 : Double.round 0 = 0.
Proof. reflexivity. Qed.

Lemma round_1 : Double.round 1 == 1.
Proof. reflexivity. Qed.

Lemma round_100 : Double.round 100 == 100.
Proof. reflexivity. Qed.

Lemma round_nonneg (x : Q) : 0 <= x -> 0 <= Double.round x.
Proof. intros H. rewrite <- round_0 at 1. apply round_mono; lra. Qed.

Lemma round_le_1 (x : Q) : 0 <= x <= 1 -> Double.round x <= 1.
Proof. intros [H0 H1]. rewrite <- round_1. now apply round_mono. Qed.

(** The percentage of memory in use, computed in binary64, is within
    2^-44 of the exact one. *)
Lemma usage_close (f t : Z) :
  (0 < t)%Z -> (0 <= f <= t)%Z ->
  let p := Double.mul (Double.sub 1 (Double.div (inject_Z f) (inject_Z t))) 100 in
  let x := (1 - inject_Z f / inject_Z t) * 100 in
  - (1 # 17592186044416) <= p - x <= 1 # 17592186044416.
Proof.
  intros Ht Hf p x. subst p x. unfold Double.mul, Double.sub, Double.div.
  assert (HT : 0 < inject_Z t) by (change 0 with (inject_Z 0); now rewrite <- Zlt_Qlt).
  assert (Hx0 : 0 <= inject_Z f / inject_Z t <= 1).
  { split.
    - apply Qle_shift_div_l; [exact HT |]. rewrite Qmult_0_l.
      change 0 with (inject_Z 0). rewrite <- Zle_Qle. lia.
    - apply Qle_shift_div_r; [exact HT |]. rewrite Qmult_1_l. rewrite <- Zle_Qle. lia. }
  set (x0 := inject_Z f / inject_Z t) in *.
  pose proof (round_error_unit x0 Hx0) as E1.
  pose proof (round_nonneg x0 (proj1 Hx0)) as N1.
  pose proof (round_le_1 x0 Hx0) as L1.
  set (q1 := Double.round x0) in *.
  assert (Hs0 : 0 <= 1 - q1 <= 1) by (split; lra).
  pose proof (round_error_unit _ Hs0) as E2.
  pose proof (round_nonneg _ (proj1 Hs0)) as N2.
  pose proof (round_le_1 _ Hs0) as L2.
  set (s := Double.round (1 - q1)) in *.
  assert (Hp0 : 0 <= s * 100 <= 100) by (split; lra).
  pose proof (round_error_hundred _ Hp0) as E3.
  set (p := Double.round (s * 100)) in *.
  split; lra.
Qed.


(** Below 16 TiB of memory the usage computed in binary64 is the exact
    floor, except that a whole percentage may come out one less. *)
Lemma usage_floor (f t : Z) :
  (0 < t < 2 ^ 44)%Z -> (0 <= f <= t)%Z ->
  let u := Qfloor (Double.mul (Double.sub 1 (Double.div (inject_Z f) (inject_Z t))) 100) in
  let e := (100 * (t - f) / t)%Z in
  (e - 1 <= u <= e)%Z /\ (((100 * (t - f)) mod t <> 0)%Z -> u = e).
Proof.
  intros [Ht Hbig] Hf u e.
  pose proof (usage_close f t Ht Hf) as H. cbv zeta in H.
  set (p := Double.mul (Double.sub 1 (Double.div (inject_Z f) (inject_Z t))) 100) in *.
  set (x := (1 - inject_Z f / inject_Z t) * 100) in *.
  set (n := (100 * (t - f))%Z) in *.
  pose proof (Z.div_mod n t ltac:(lia)) as Hdm.
  pose proof (Z.mod_pos_bound n t Ht) as Hr.
  fold e in Hdm. set (r := (n mod t)%Z) in *.
  assert (HT : 0 < inject_Z t) by (change 0 with (inject_Z 0); now rewrite <- Zlt_Qlt).
  assert (HT' : inject_Z t <= 17592186044415).
  { change 17592186044415 with (inject_Z 17592186044415). rewrite <- Zle_Qle. lia. }
  assert (Ex : x * inject_Z t == inject_Z e * inject_Z t + inject_Z r).
  { rewrite <- inject_Z_mult, <- inject_Z_plus.
    replace (e * t + r)%Z with n by lia.
    subst x n. rewrite inject_Z_mult. unfold Z.sub. rewrite inject_Z_plus, inject_Z_opp.
    change (inject_Z 100) with 100. field. lra. }
  assert (Hr0 : 0 <= inject_Z r).
  { change 0 with (inject_Z 0). rewrite <- Zle_Qle. lia. }
  assert (Hr1 : inject_Z r + 1 <= inject_Z t).
  { change 1 with (inject_Z 1). rewrite <- inject_Z_plus, <- Zle_Qle. lia. }
  set (T := inject_Z t) in *. set (E := inject_Z e) in *. set (R := inject_Z r) in *.
  destruct H as [Hlo Hhi].
  assert (Hup : p < E + 1).
  { assert (T * p < T * (E + 1)) by nra. nra. }
  assert (Hdown : E - 1 < p).
  { assert (T * (E - 1) < T * p) by nra. nra. }
  subst E. split; [split |].
  - apply floor_lower. unfold Z.sub. rewrite inject_Z_plus.
    change (inject_Z (- (1))) with (- (1)). lra.
  - apply Z.lt_succ_r. apply floor_upper.
    unfold Z.succ. rewrite inject_Z_plus. change (inject_Z 1) with 1. lra.
  - intros Hne. apply floor_unique.
    + assert (1 <= R).
      { subst R. change 1 with (inject_Z 1). rewrite <- Zle_Qle. lia. }
      assert (T * inject_Z e <= T * p) by nra. nra.
    + rewrite inject_Z_plus. change (inject_Z 1) with 1. lra.
Qed.

End Rounding64.

(** * The statistics snapshot in binary64 arithmetic *)

Section Stats64.

Variable pkg : Packages.
Variable req : Request.
Variable w : World.

Let draw (k : nat) : Q := Math_random w (k + random_calls w).
Let free (k : nat) : Z := os_freemem w (k + freemem_calls w).
Let total : Z := os_totalmem w.

Hypothesis reaches : reaches_routes pkg req = true.
Hypothesis is_get : method req = GET.
Hypothesis at_stats : path_matches "/api/stats" (path req) = true.

Lemma serve64_stats :
  Binary64.serve pkg req w
  = match runState (Binary64.stats req) w with
    | (Respond r, w') => (Sent r, w')
    | (_, w') => (Sent Res.res, w')
    end.
Proof.
  pose proof (get_route_matches req _ is_get at_stats) as H.
  pose proof at_stats as Hp.
  unfold Binary64.serve, Binary64.app.
  rewrite handle_passing by exact reaches.
  unfold Binary64.routes. cbn [List.app].
  rewrite (handle_route_skip _ GET "/") by path_known Hp.
  rewrite (handle_route_skip _ GET "/api/health") by path_known Hp.
  erewrite handle_route_hit; [| exact H | reflexivity].
  reflexivity.
Qed.

Lemma serve64_fields :
  exists v,
    Binary64.serve pkg req w
    = (Sent {| statusCode := 200; payload := Json v |},
       Nat.iter 4 Host.random_consumed (Nat.iter 2 Host.freemem_consumed w))
    /\ prop2 "cpu" "usage" v
       = Some (VInt (Qfloor (Double.mul (draw 0) 100)))
    /\ prop2 "memory" "total" v
       = Some (VInt (Qfloor (Double.div (Double.div (inject_Z total) 1024) 1024)))
    /\ prop2 "memory" "free" v
       = Some (VInt (Qfloor (Double.div (Double.div (inject_Z (free 0)) 1024) 1024)))
    /\ prop2 "memory" "usage" v
       = Some (VInt (Qfloor
                       (Double.mul
                          (Double.sub 1 (Double.div (inject_Z (free 1)) (inject_Z total)))
                          100)))
    /\ prop2 "disk" "total" v = Some (VInt 500)
    /\ prop2 "disk" "used" v
       = Some (VInt (Qfloor (Double.add (Double.mul (draw 1) 200) 100)))
    /\ prop2 "disk" "free" v
       = Some (VInt (Qfloor (Double.add (Double.mul (draw 2) 200) 100)))
    /\ prop2 "network" "traffic" v
       = Some (VString (JS.toFixed1 (Double.mul (draw 3) 10))).
Proof.
  rewrite serve64_stats. eexists. split; [reflexivity |]. repeat split.
Qed.

End Stats64.

Section Bounds64.

Local Open Scope Q_scope.

Lemma round_le_const (x c : Q) (n : Z) :
  0 <= x -> x <= c -> Qle_bool (Double.round c) (inject_Z n) = true ->
  Double.round x <= inject_Z n.
Proof.
  intros H0 Hc Hn. apply Qle_trans with (Double.round c).
  - now apply round_mono.
  - now apply Qle_bool_iff.
Qed.

Lemma round_ge_const (x c : Q) (n : Z) :
  0 <= c -> c <= x -> Qle_bool (inject_Z n) (Double.round c) = true ->
  inject_Z n <= Double.round x.
Proof.
  intros H0 Hc Hn. apply Qle_trans with (Double.round c).
  - now apply Qle_bool_iff.
  - now apply round_mono.
Qed.

(** cpu.usage for a draw that is at most the largest number below 1. *)
Lemma cpu64_range (r : Q) :
  0 <= r <= Double.below_one -> (0 <= Qfloor (Double.mul r 100) <= 99)%Z.
Proof.
  intros [H0 H1]. unfold Double.mul. split.
  - apply floor_lower. change (inject_Z 0) with 0. apply round_nonneg. lra.
  - apply Z.le_trans with (Qfloor (Double.round (Double.below_one * 100))).
    + apply Qfloor_resp_le, round_mono; lra.
    + vm_compute. discriminate.
Qed.

Lemma cpu64_at_most_100 (r : Q) :
  0 <= r < 1 -> (0 <= Qfloor (Double.mul r 100) <= 100)%Z.
Proof.
  intros [H0 H1]. unfold Double.mul. split.
  - apply floor_lower. change (inject_Z 0) with 0. apply round_nonneg. lra.
  - apply Z.le_trans with (Qfloor (Double.round 100)).
    + apply Qfloor_resp_le, round_mono; lra.
    + vm_compute. discriminate.
Qed.

Lemma disk64_range (r c : Q) (top : Z) :
  0 <= r <= c ->
  (Qfloor (Double.add (Double.mul c 200) 100) <=? top)%Z = true ->
  (100 <= Qfloor (Double.add (Double.mul r 200) 100) <= top)%Z.
Proof.
  intros [H0 H1] Htop. unfold Double.add, Double.mul in *.
  assert (N : 0 <= Double.round (r * 200)) by (apply round_nonneg; lra).
  assert (M : Double.round (r * 200) <= Double.round (c * 200))
    by (apply round_mono; lra).
  split.
  - apply floor_lower. apply (round_ge_const _ 100); [lra | lra | reflexivity].
  - apply Z.leb_le in Htop.
    apply Z.le_trans with (Qfloor (Double.round (Double.round (c * 200) + 100)));
      [| exact Htop].
    apply Qfloor_resp_le, round_mono; lra.
Qed.

Lemma traffic64_range (r : Q) :
  0 <= r < 1 ->
  0 <= Double.mul r 10
  /\ (0 <= Qfloor (Double.mul r 10 * 10 + (1 # 2)) <= 100)%Z.
Proof.
  intros [H0 H1]. unfold Double.mul.
  assert (N : 0 <= Double.round (r * 10)) by (apply round_nonneg; lra).
  assert (M : Double.round (r * 10) <= inject_Z 10)
    by (apply (round_le_const _ 10); [lra | lra | reflexivity]).
  change (inject_Z 10) with 10 in M.
  split; [exact N |]. split.
  - apply floor_lower. change (inject_Z 0) with 0. lra.
  - apply Z.lt_succ_r, floor_upper. change (inject_Z (Z.succ 100)) with 101. lra.
Qed.

Lemma mebibytes64_mono (f t : Z) :
  (0 <= f <= t)%Z ->
  (Qfloor (Double.div (Double.div (inject_Z f) 1024) 1024)
   <= Qfloor (Double.div (Double.div (inject_Z t) 1024) 1024))%Z.
Proof.
  intros [H0 H1]. unfold Double.div.
  assert (F : 0 <= inject_Z f).
  { change 0 with (inject_Z 0). now rewrite <- Zle_Qle. }
  assert (FT : inject_Z f <= inject_Z t) by now rewrite <- Zle_Qle.
  assert (A : 0 <= inject_Z f / 1024).
  { apply Qle_shift_div_l; [reflexivity | lra]. }
  assert (B : inject_Z f / 1024 <= inject_Z t / 1024).
  { unfold Qdiv. apply Qmult_le_compat_r; [exact FT | discriminate]. }
  pose proof (round_nonneg _ A) as A'.
  pose proof (round_mono _ _ A B) as B'.
  apply Qfloor_resp_le, round_mono.
  - apply Qle_shift_div_l; [reflexivity | lra].
  - unfold Qdiv. apply Qmult_le_compat_r; [exact B' | discriminate].
Qed.

Lemma usage64_range (f t : Z) :
  (0 < f <= t)%Z ->
  (0 <= Qfloor (Double.mul (Double.sub 1 (Double.div (inject_Z f) (inject_Z t))) 100)
   <= 100)%Z.
Proof.
  intros H. destruct (ratio_bounds f t H) as [R0 R1].
  unfold Double.mul, Double.sub, Double.div.
  set (x0 := inject_Z f / inject_Z t) in *.
  assert (Hx0 : 0 <= x0 <= 1) by (split; lra).
  pose proof (round_nonneg x0 (proj1 Hx0)) as N1.
  pose proof (round_le_1 x0 Hx0) as L1.
  set (q1 := Double.round x0) in *.
  assert (Hs0 : 0 <= 1 - q1 <= 1) by (split; lra).
  pose proof (round_nonneg _ (proj1 Hs0)) as N2.
  pose proof (round_le_1 _ Hs0) as L2.
  set (s := Double.round (1 - q1)) in *.
  split.
  - apply floor_lower. change (inject_Z 0) with 0. apply round_nonneg. lra.
  - apply Z.le_trans with (Qfloor (Double.round 100)).
    + apply Qfloor_resp_le, round_mono; lra.
    + vm_compute. discriminate.
Qed.

End Bounds64.

(** C4 (as stated). On a host with 3 GiB of memory of which 1 GiB is free,
    [memory.usage] is 66, while round((1 - free/total) * 100) is 67. *)
Lemma memory_usage_rounded_fails :
  ~ (forall v,
        json_of (fst (Binary64.serve Example.pkg (Example.request GET "/api/stats")
                                     Binary64.host)) = Some v ->
        prop2 "memory" "usage" v
        = Some (VInt (Spec.round
                        (Double.mul
                           (Double.sub 1
                              (Double.div (inject_Z (os_freemem Binary64.host 1))
                                          (inject_Z (os_totalmem Binary64.host))))
                           100)))).
Proof.
  intros H. specialize (H _ eq_refl). vm_compute in H. discriminate H.
Qed.

(** C4 (amended). For every GET /api/stats response, [memory.usage] is
    floor((1 - free/total) * 100) with the division, the subtraction and
    the multiplication each rounded to binary64, where total is the
    host's total memory and free the free memory that the handler reads
    for this field.  With 0 <= free <= total < 2^44 bytes this is the
    floor of the exact percentage 100 * (total - free) / total, except
    that a whole percentage may come out one less (9 for 9 GiB free of
    10 GiB). *)
Theorem memory_usage_floor (pkg : Packages) (req : Request) (w : World) :
  reaches_routes pkg req = true ->
  method req = GET ->
  path_matches "/api/stats" (path req) = true ->
  0 < os_totalmem w < 2 ^ 44 ->
  0 <= os_freemem w (S (freemem_calls w)) <= os_totalmem w ->
  let free := os_freemem w (S (freemem_calls w)) in
  let total := os_totalmem w in
  exists v usage,
    fst (Binary64.serve pkg req w)
    = Sent {| statusCode := 200; payload := Json v |}
    /\ prop2 "memory" "usage" v = Some (VInt usage)
    /\ usage
       = Qfloor (Double.mul
                   (Double.sub 1 (Double.div (inject_Z free) (inject_Z total)))
                   100)
    /\ 100 * (total - free) / total - 1 <= usage <= 100 * (total - free) / total
    /\ ((100 * (total - free)) mod total <> 0 ->
        usage = 100 * (total - free) / total).
Proof.
  intros Hreach Hget Hpath Htotal Hfree free total.
  destruct (serve64_fields pkg req w Hreach Hget Hpath)
    as (v & Hserve & _ & _ & _ & Husage & _).
  exists v. eexists. rewrite Hserve. split; [reflexivity |].
  split; [exact Husage |]. split; [reflexivity |].
  exact (usage_floor free total Htotal Hfree).
Qed.

Lemma memory_usage_floor_witness :
  exists v,
    fst (Binary64.serve Example.pkg (Example.request GET "/api/stats")
                        Binary64.ten_nine)
    = Sent {| statusCode := 200; payload := Json v |}
    /\ prop2 "memory" "usage" v = Some (VInt 9).
Proof.
  destruct (memory_usage_floor Example.pkg (Example.request GET "/api/stats")
              Binary64.ten_nine eq_refl eq_refl eq_refl)
    as (v & usage & Hserve & Hfield & Hvalue & _).
  - split; reflexivity.
  - split; discriminate.
  - exists v. split; [exact Hserve |]. rewrite Hfield, Hvalue. reflexivity.
Defined.

(** C5 (as stated). On the sample host the traffic field is the string
    "3.7", not a number. *)
Lemma traffic_number_fails :
  ~ (forall v,
        json_of (fst (Binary64.serve Example.pkg (Example.request GET "/api/stats")
                                     Binary64.host)) = Some v ->
        exists q, prop2 "network" "traffic" v = Some (VNumber q) /\ (0 <= q)%Q).
Proof.
  intros H. destruct (H _ eq_refl) as (q & Hq & _).
  vm_compute in Hq. discriminate Hq.
Qed.

(** C5 (amended). For every GET /api/stats response, the network traffic
    field is a string: the numeral with exactly one fractional digit,
    "a.b", of a number of tenths n = 10 a + b between 0 and 100, which
    is the binary64 product of the random draw and ten, rounded to the
    nearest tenth (the larger one on a tie). *)
Theorem traffic_string (pkg : Packages) (req : Request) (w : World) :
  reaches_routes pkg req = true ->
  method req = GET ->
  path_matches "/api/stats" (path req) = true ->
  (0 <= Math_random w (3 + random_calls w) < 1)%Q ->
  exists v n,
    fst (Binary64.serve pkg req w)
    = Sent {| statusCode := 200; payload := Json v |}
    /\ prop2 "network" "traffic" v
       = Some (VString (JS.Number_toString (n / 10) ++ "."
                        ++ JS.Number_toString (n mod 10)))
    /\ n = Spec.round (Double.mul (Math_random w (3 + random_calls w)) 10 * 10)
    /\ 0 <= n <= 100.
Proof.
  intros Hreach Hget Hpath Hdraw.
  destruct (serve64_fields pkg req w Hreach Hget Hpath)
    as (v & Hserve & _ & _ & _ & _ & _ & _ & _ & Htraffic).
  destruct (traffic64_range _ Hdraw) as [Hpos Hn].
  exists v. eexists. rewrite Hserve. split; [reflexivity |].
  rewrite Htraffic, toFixed1_nonneg by exact Hpos.
  split; [reflexivity |]. split; [reflexivity | exact Hn].
Qed.

Lemma traffic_string_witness :
  exists v,
    fst (Binary64.serve Example.pkg (Example.request GET "/api/stats")
                        Binary64.boundary)
    = Sent {| statusCode := 200; payload := Json v |}
    /\ prop2 "network" "traffic" v = Some (VString "5.8").
Proof.
  destruct (traffic_string Example.pkg (Example.request GET "/api/stats")
              Binary64.boundary eq_refl eq_refl eq_refl)
    as (v & n & Hserve & Hfield & Hn & _).
  - split; [discriminate | reflexivity].
  - exists v. split; [exact Hserve |]. rewrite Hfield, Hn. reflexivity.
Defined.

(** C10 (as stated). For the draw 1 - 2^-53, the largest number below 1,
    disk.used is 300: the sum 299.99999999999997 lies half-way between
    two binary64 numbers and is rounded to 300. *)
Lemma disk_used_300 :
  ~ (forall v,
        json_of (fst (Binary64.serve Example.pkg (Example.request GET "/api/stats")
                                     Binary64.top)) = Some v ->
        exists used,
          prop2 "disk" "used" v = Some (VInt used) /\ 100 <= used <= 299).
Proof.
  intros H. destruct (H _ eq_refl) as (used & Hused & Hrange).
  vm_compute in Hused. injection Hused as Hused. lia.
Qed.

(** C10 (amended). For every GET /api/stats response, with random draws
    that are binary64 numbers in [0, 1): cpu.usage is an integer between
    0 and 99 (never 100), disk.total is exactly 500, and disk.used and
    disk.free are integers between 100 and 300; they are at most 299
    whenever their draw is at most 1 - 2^-52, as every multiple of 2^-52
    below 1 is. *)
Theorem stats_synthetic_ranges (pkg : Packages) (req : Request) (w : World) :
  reaches_routes pkg req = true ->
  method req = GET ->
  path_matches "/api/stats" (path req) = true ->
  (forall k, (0 <= Math_random w k <= Double.below_one)%Q) ->
  exists v cpu_usage disk_used disk_free,
    fst (Binary64.serve pkg req w)
    = Sent {| statusCode := 200; payload := Json v |}
    /\ prop2 "cpu" "usage" v = Some (VInt cpu_usage)
    /\ prop2 "disk" "total" v = Some (VInt 500)
    /\ prop2 "disk" "used" v = Some (VInt disk_used)
    /\ prop2 "disk" "free" v = Some (VInt disk_free)
    /\ 0 <= cpu_usage <= 99
    /\ 100 <= disk_used <= 300
    /\ 100 <= disk_free <= 300
    /\ ((Math_random w (1 + random_calls w) <= Double.below_one_52)%Q ->
        disk_used <= 299)
    /\ ((Math_random w (2 + random_calls w) <= Double.below_one_52)%Q ->
        disk_free <= 299).
Proof.
  intros Hreach Hget Hpath Hdraw.
  destruct (serve64_fields pkg req w Hreach Hget Hpath)
    as (v & Hserve & Hcpu & _ & _ & _ & Hdt & Hdu & Hdf & _).
  exists v. do 3 eexists. rewrite Hserve.
  repeat match goal with
         | |- _ = _ /\ _ => split; [eassumption || reflexivity |]
         end.
  split; [apply cpu64_range, Hdraw |].
  split; [apply (disk64_range _ Double.below_one); [apply Hdraw | reflexivity] |].
  split; [apply (disk64_range _ Double.below_one); [apply Hdraw | reflexivity] |].
  split; intros Hsmall.
  - apply (disk64_range _ Double.below_one_52);
      [split; [apply Hdraw | exact Hsmall] | reflexivity].
  - apply (disk64_range _ Double.below_one_52);
      [split; [apply Hdraw | exact Hsmall] | reflexivity].
Qed.

Lemma stats_synthetic_ranges_witness :
  exists v cpu_usage disk_used disk_free,
    fst (Binary64.serve Example.pkg (Example.request GET "/api/stats")
                        Binary64.host)
    = Sent {| statusCode := 200; payload := Json v |}
    /\ prop2 "cpu" "usage" v = Some (VInt cpu_usage)
    /\ prop2 "disk" "total" v = Some (VInt 500)
    /\ prop2 "disk" "used" v = Some (VInt disk_used)
    /\ prop2 "disk" "free" v = Some (VInt disk_free)
    /\ 0 <= cpu_usage <= 99
    /\ 100 <= disk_used <= 300
    /\ 100 <= disk_free <= 300
    /\ ((Math_random Binary64.host 1 <= Double.below_one_52)%Q -> disk_used <= 299)
    /\ ((Math_random Binary64.host 2 <= Double.below_one_52)%Q -> disk_free <= 299).
Proof.
  apply (stats_synthetic_ranges Example.pkg (Example.request GET "/api/stats")
                                Binary64.host);
    [ reflexivity | reflexivity | reflexivity
    | intros k; split; discriminate ].
Defined.

(** X6. A GET /api/stats request consumes exactly four random draws and
    two readings of the free memory, and changes nothing else of the
    host; the next request therefore takes fresh draws and readings: its
    cpu.usage comes from the fifth draw and its memory.free from the
    third reading (each computed in binary64). *)
Theorem stats_fresh_readings (pkg : Packages) (req : Request) (w : World) :
  reaches_routes pkg req = true ->
  method req = GET ->
  path_matches "/api/stats" (path req) = true ->
  let w1 := snd (Binary64.serve pkg req w) in
  w1 = Nat.iter 4 Host.random_consumed (Nat.iter 2 Host.freemem_consumed w)
  /\ exists v,
       fst (Binary64.serve pkg req w1)
       = Sent {| statusCode := 200; payload := Json v |}
       /\ prop2 "cpu" "usage" v
          = Some (VInt (Qfloor (Double.mul (Math_random w (4 + random_calls w)) 100)))
       /\ prop2 "memory" "free" v
          = Some (VInt (Qfloor
                          (Double.div
                             (Double.div
                                (inject_Z (os_freemem w (2 + freemem_calls w)))
                                1024)
                             1024))).
Proof.
  intros Hreach Hget Hpath w1. subst w1.
  destruct (serve64_fields pkg req w Hreach Hget Hpath) as (v0 & Hserve0 & _).
  rewrite Hserve0. cbn [snd]. split; [reflexivity |].
  destruct (serve64_fields pkg req
              (Nat.iter 4 Host.random_consumed (Nat.iter 2 Host.freemem_consumed w))
              Hreach Hget Hpath)
    as (v & Hserve & Hcpu & _ & Hfree & _).
  exists v. rewrite Hserve. split; [reflexivity |]. split; [exact Hcpu | exact Hfree].
Qed.

Lemma stats_fresh_readings_witness :
  snd (Binary64.serve Example.pkg (Example.request GET "/api/stats") Binary64.host)
  = Nat.iter 4 Host.random_consumed
             (Nat.iter 2 Host.freemem_consumed Binary64.host).
Proof.
  apply (stats_fresh_readings Example.pkg (Example.request GET "/api/stats")
                              Binary64.host); reflexivity.
Defined.

(** X17. The bounds of the statistics snapshot hold with every operation
    rounded to binary64 as well: for draws in [0, 1) and readings of the
    free memory that are positive and at most the total,
    memory.free <= memory.total, 0 <= memory.usage <= 100,
    0 <= cpu.usage <= 100, and disk.total, disk.used and disk.free are
    each greater than 0. *)
Theorem stats_invariants_binary64 (pkg : Packages) (req : Request) (w : World) :
  reaches_routes pkg req = true ->
  method req = GET ->
  path_matches "/api/stats" (path req) = true ->
  (forall k, (0 <= Math_random w k < 1)%Q) ->
  (forall k, 0 < os_freemem w k <= os_totalmem w) ->
  exists v memory_total memory_free memory_usage cpu_usage
         disk_total disk_used disk_free,
    fst (Binary64.serve pkg req w)
    = Sent {| statusCode := 200; payload := Json v |}
    /\ prop2 "memory" "total" v = Some (VInt memory_total)
    /\ prop2 "memory" "free" v = Some (VInt memory_free)
    /\ prop2 "memory" "usage" v = Some (VInt memory_usage)
    /\ prop2 "cpu" "usage" v = Some (VInt cpu_usage)
    /\ prop2 "disk" "total" v = Some (VInt disk_total)
    /\ prop2 "disk" "used" v = Some (VInt disk_used)
    /\ prop2 "disk" "free" v = Some (VInt disk_free)
    /\ memory_free <= memory_total
    /\ 0 <= memory_usage <= 100
    /\ 0 <= cpu_usage <= 100
    /\ 0 < disk_total /\ 0 < disk_used /\ 0 < disk_free.
Proof.
  intros Hreach Hget Hpath Hdraw Hmem.
  destruct (serve64_fields pkg req w Hreach Hget Hpath)
    as (v & Hserve & Hcpu & Htotal & Hfree & Husage & Hdt & Hdu & Hdf & _).
  exists v. do 7 eexists. rewrite Hserve.
  repeat match goal with
         | |- _ = _ /\ _ => split; [eassumption || reflexivity |]
         end.
  assert (Hm0 := Hmem (0 + freemem_calls w)%nat).
  pose proof (mebibytes64_mono _ _ (conj (Z.lt_le_incl _ _ (proj1 Hm0)) (proj2 Hm0))).
  pose proof (usage64_range _ _ (Hmem (1 + freemem_calls w)%nat)).
  pose proof (cpu64_at_most_100 _ (Hdraw (0 + random_calls w)%nat)).
  assert (D : forall k, 100 <= Qfloor (Double.add (Double.mul (Math_random w k) 200) 100)).
  { intros k. destruct (Hdraw k) as [Hk0 Hk1].
    apply (disk64_range _ 1 300);
      [split; [exact Hk0 | now apply Qlt_le_weak] | reflexivity]. }
  pose proof (D (1 + random_calls w)%nat).
  pose proof (D (2 + random_calls w)%nat).
  lia.
Qed.

Lemma stats_invariants_binary64_witness :
  exists v memory_total memory_free memory_usage cpu_usage
         disk_total disk_used disk_free,
    fst (Binary64.serve Example.pkg (Example.request GET "/api/stats")
                        Binary64.top)
    = Sent {| statusCode := 200; payload := Json v |}
    /\ prop2 "memory" "total" v = Some (VInt memory_total)
    /\ prop2 "memory" "free" v = Some (VInt memory_free)
    /\ prop2 "memory" "usage" v = Some (VInt memory_usage)
    /\ prop2 "cpu" "usage" v = Some (VInt cpu_usage)
    /\ prop2 "disk" "total" v = Some (VInt disk_total)
    /\ prop2 "disk" "used" v = Some (VInt disk_used)
    /\ prop2 "disk" "free" v = Some (VInt disk_free)
    /\ memory_free <= memory_total
    /\ 0 <= memory_usage <= 100
    /\ 0 <= cpu_usage <= 100
    /\ 0 < disk_total /\ 0 < disk_used /\ 0 < disk_free.
Proof.
  apply (stats_invariants_binary64 Example.pkg (Example.request GET "/api/stats")
                                   Binary64.top);
    [ reflexivity | reflexivity | reflexivity
    | intros k; split; [discriminate | reflexivity]
    | intros k; split; [reflexivity | discriminate] ].
Defined.

(** * The two arithmetics agree outside the statistics route *)

Section SameReply.

Variable pkg : Packages.
Variable req : Request.

Lemma handle_skipped_route (m : Method) (pattern : string) (fn fn' : Handler)
    (before after : list Layer) :
  route_matches m pattern req = false ->
  forall err w,
    runState (handle (before ++ route m pattern fn :: after) err req) w
    = runState (handle (before ++ route m pattern fn' :: after) err req) w.
Proof.
  intros Hskip. induction before as [|layer before IH]; intros err w.
  - cbn [List.app]. destruct err as [e|]; cbn; [reflexivity |].
    rewrite Hskip. reflexivity.
  - cbn [List.app].
    destruct layer as [fn0|fn0|m0 p0 fn0], err as [e|]; cbn; try apply IH.
    + destruct (runState (fn0 req) w) as [o w']; destruct o; cbn;
        try apply IH; reflexivity.
    + destruct (runState (fn0 e req) w) as [o w']; destruct o; cbn;
        try apply IH; reflexivity.
    + destruct (route_matches m0 p0 req); [| apply IH].
      cbn. destruct (runState (fn0 req) w) as [o w']; destruct o; cbn;
        try apply IH; reflexivity.
Qed.

(** A request that does not match the statistics route gets the same
    reply, and leaves the same host, in both arithmetics. *)
Lemma serve_binary64_same (w : World) :
  route_matches GET "/api/stats" req = false ->
  Binary64.serve pkg req w = serve pkg req w.
Proof.
  intros Hskip. unfold Binary64.serve, serve.
  change (Binary64.app pkg) with
    ((map middleware (pre_route pkg)
      ++ [route GET "/" (home pkg); route GET "/api/health" health])
     ++ route GET "/api/stats" Binary64.stats
        :: [route POST "/api/control/start" control_start;
            route POST "/api/control/stop" control_stop;
            route POST "/api/control/restart" control_restart;
            use_error error_handler; use not_found])%list.
  change (app pkg) with
    ((map middleware (pre_route pkg)
      ++ [route GET "/" (home pkg); route GET "/api/health" health])
     ++ route GET "/api/stats" stats
        :: [route POST "/api/control/start" control_start;
            route POST "/api/control/stop" control_stop;
            route POST "/api/control/restart" control_restart;
            use_error error_handler; use not_found])%list.
  now apply handle_skipped_route.
Qed.

End SameReply.
